(** * The workflow loader of InvokeAI's web frontend

    A shallow embedding of
    [invokeai/frontend/web/src/features/workflowLibrary/hooks/useLoadWorkflow.ts]:
    the helper [getWorkflowFromStringifiedWorkflowOrGraph] and the callback
    [loadWorkflow] that the hook [useLoadWorkflow] returns.

    The loader is a thin orchestrator.  It reads the template atom, parses
    one of two strings, hands the parsed document to the validator, and then
    either publishes the validated workflow (reset of the execution states,
    dispatch, one toast, warning log lines, the fit flag) or reports the
    thrown error (one log line, one toast) and returns [null].

    JavaScript exceptions are modelled by a sum type, the application stores
    and the toast/log/dispatch collaborators by an explicit world that is
    threaded through a state-and-exception monad. *)

From Stdlib Require Import ZArith Ascii List.
From stdpp Require Import base option list strings gmap.

Import ListNotations.

Set Warnings "-register-all".

(** ** JavaScript values *)

(** What [JSON.parse] produces, and what the validator receives as
    [unknown].  Objects keep their members in source order. *)
Inductive JsValue : Type :=
| JsNull
| JsBool (b : bool)
| JsNumber (n : Z)
| JsString (s : string)
| JsArray (items : list JsValue)
| JsObject (members : list (string * JsValue)).

(** [WorkflowV3] and [NonNullableGraph] are TypeScript types over such
    values; the cast [parsed as NonNullableGraph] does nothing at run time. *)
Definition WorkflowV3 : Type := JsValue.

(** [Templates]: a record from node type to its invocation template. *)
Abbreviation Templates := (gmap string JsValue).

(** [GraphAndWorkflowResponse]: both fields are [string | null]. *)
Record GraphAndWorkflowResponse : Type := {
  data_workflow : option string;
  data_graph : option string;
}.

(** The condition [if (data.workflow)]: a string is truthy when it is
    neither [null] nor empty.  The truthy string is returned for use in the
    branch. *)
Definition truthy (field : option string) : option string :=
  match field with
  | Some (String _ _ as s) => Some s
  | Some EmptyString => None
  | None => None
  end.

(** ** Thrown values *)

(** One issue of a [z.ZodError]. *)
Record ZodIssue : Type := {
  issue_code : string;
  issue_path : list string;
  issue_message : string;
}.

(** The values that reach the [catch] clause, by class.  The three classes
    that the clause tests with [instanceof] are disjoint; everything else
    (a [SyntaxError] of [JSON.parse], a [TypeError], a plain [Error], a
    thrown value that is no error at all) is kept apart only so that inputs
    can be told from each other. *)
Inductive JsThrown : Type :=
| WorkflowVersionError (message : string)
| WorkflowMigrationError (message : string)
| ZodError (issues : list ZodIssue)
| SyntaxError (message : string)
| TypeError (message : string)
| Error (message : string)
| ThrownValue (v : JsValue).

(** ** Validation results *)

(** A warning [{ message, ...rest }]. *)
Record ValidationWarning : Type := {
  warning_message : string;
  warning_rest : JsValue;
}.

(** What [validateWorkflow] resolves to. *)
Record ValidationResult : Type := {
  vr_workflow : WorkflowV3;
  vr_warnings : list ValidationWarning;
}.

(** The access checkers are opaque asynchronous predicates on a name. *)
Definition AccessCheck : Type := string -> bool.

(** The argument object of [validateWorkflow]. *)
Record ValidateWorkflowArgs : Type := {
  arg_workflow : JsValue;
  arg_templates : Templates;
  arg_checkImageAccess : AccessCheck;
  arg_checkBoardAccess : AccessCheck;
  arg_checkModelAccess : AccessCheck;
}.

(** ** The world of the collaborators *)

Inductive ToastStatus : Type := StatusSuccess | StatusWarning | StatusError.

(** The options object passed to [toast]. *)
Record Toast : Type := {
  toast_id : string;
  toast_title : string;
  toast_status : ToastStatus;
  toast_description : option string;
}.

(** Redux actions; the loader dispatches only this one. *)
Inductive Action : Type :=
| workflowLoaded (workflow : WorkflowV3).

(** Calls into the collaborators that returned, in the order in which they
    happened.  A call that throws has no effect and is not recorded. *)
Inductive Event : Type :=
| NodeExecutionStatesSet (states : gmap string JsValue)
| Dispatched (action : Action)
| Toasted (options : Toast)
| LogWarn (context : JsValue) (message : string)
| LogError (context : JsValue) (message : string)
| NeedsFitSet (flag : bool).

(** The three atoms the loader touches and the trace of its calls. *)
Record World : Type := {
  atom_templates : Templates;
  atom_nodeExecutionStates : gmap string JsValue;
  atom_needsFit : bool;
  trace : list Event;
}.

Definition emit (events : list Event) (w : World) : World :=
  {| atom_templates := atom_templates w;
     atom_nodeExecutionStates := atom_nodeExecutionStates w;
     atom_needsFit := atom_needsFit w;
     trace := trace w ++ events |}.

(** ** Exceptions, and exceptions over the world *)

(** A call that returns or throws. *)
Definition Except (A : Type) : Type := JsThrown + A.

#[global] Instance Except_ret : MRet Except := fun _ a => inr a.
#[global] Instance Except_bind : MBind Except :=
  fun _ _ k m => match m with inl e => inl e | inr a => k a end.
#[global] Instance Except_throw : MThrow JsThrown Except := fun _ e => inl e.

(** A computation that touches the world and returns or throws.  Effects
    that happened before a throw stay. *)
Definition M (A : Type) : Type := World -> Except A * World.

#[global] Instance M_ret : MRet M := fun _ a w => (inr a, w).
#[global] Instance M_bind : MBind M :=
  fun _ _ k m w => match m w with
                   | (inl e, w') => (inl e, w')
                   | (inr a, w') => k a w'
                   end.
#[global] Instance M_throw : MThrow JsThrown M := fun _ e w => (inl e, w).

(** [await p] inside [try]: the settled promise returns or throws. *)
Definition await {A : Type} (p : Except A) : M A := fun w => (p, w).

(** [try { body } catch (e) { handler }]. *)
Definition try_catch {A : Type} (body : M A) (handler : JsThrown -> M A) : M A :=
  fun w => match body w with
           | (inl e, w') => handler e w'
           | (inr a, w') => (inr a, w')
           end.

(** [$templates.get()]. *)
Definition templates_get : M Templates :=
  fun w => (inr (atom_templates w), w).

(** [log.error(context, message)], called in the catch clause only. *)
Definition log_error (context : JsValue) (message : string) : M unit :=
  fun w => (inr tt, emit [LogError context message] w).

(** [xs.forEach(f)]. *)
Fixpoint forEach {A : Type} (xs : list A) (f : A -> M unit) : M unit :=
  match xs with
  | [] => mret tt
  | x :: rest => f x ;; forEach rest f
  end.

(** ** The imported collaborators *)

(** The functions the module imports and whose code lies elsewhere: the
    translation function, the two serializers used for error reports, the
    JSON parser, the graph converter, the validator and the three access
    checkers.  [JSON_parse] returns the message of the [SyntaxError] it
    throws; [fromZodError issues prefix] is the [message] of
    [fromZodError(e, { prefix })].

    The atoms, [dispatch], [toast] and the logger are imported too, and a
    call into them may throw: [throws call] is the value that the call
    throws, if it does.  Inside the [try] block such a throw reaches the
    catch clause.  A throw inside the catch clause would leave the
    callback; the error report is taken to return, which for the toaster
    is [error_toast_returns]. *)
Class Collaborators : Type := {
  t : string -> string;
  serializeError : JsThrown -> JsValue;
  fromZodError : list ZodIssue -> string -> string;
  JSON_parse : string -> string + JsValue;
  graphToWorkflow : JsValue -> bool -> Except WorkflowV3;
  validateWorkflow : ValidateWorkflowArgs -> Except ValidationResult;
  checkImageAccess : AccessCheck;
  checkBoardAccess : AccessCheck;
  checkModelAccess : AccessCheck;
  throws : Event -> option JsThrown;
  error_toast_returns :
    forall options, toast_status options = StatusError -> throws (Toasted options) = None;
}.

Section Loader.
Context `{env : Collaborators}.

(** A call into a collaborator: it throws as [throws] says, and otherwise
    has its effect on the world and returns. *)
Definition call (this : Event) (effect : World -> World) : M unit :=
  fun w => match throws this with
           | Some e => (inl e, w)
           | None => (inr tt, effect w)
           end.

(** [$nodeExecutionStates.set(states)]. *)
Definition nodeExecutionStates_set (states : gmap string JsValue) : M unit :=
  call (NodeExecutionStatesSet states)
       (fun w => {| atom_templates := atom_templates w;
                    atom_nodeExecutionStates := states;
                    atom_needsFit := atom_needsFit w;
                    trace := trace w ++ [NodeExecutionStatesSet states] |}).

(** [$needsFit.set(flag)]. *)
Definition needsFit_set (flag : bool) : M unit :=
  call (NeedsFitSet flag)
       (fun w => {| atom_templates := atom_templates w;
                    atom_nodeExecutionStates := atom_nodeExecutionStates w;
                    atom_needsFit := flag;
                    trace := trace w ++ [NeedsFitSet flag] |}).

(** [dispatch(action)]. *)
Definition dispatch (action : Action) : M unit :=
  call (Dispatched action) (emit [Dispatched action]).

(** [toast(options)]. *)
Definition toast (options : Toast) : M unit :=
  call (Toasted options) (emit [Toasted options]).

(** [log.warn(context, message)]. *)
Definition log_warn (context : JsValue) (message : string) : M unit :=
  call (LogWarn context message) (emit [LogWarn context message]).

(** [JSON.parse(text)] as a call that may throw. *)
Definition JSON_parse_call (text : string) : Except JsValue :=
  match JSON_parse text with
  | inl message => mthrow (SyntaxError message)
  | inr value => mret value
  end.

(** Lines 23-42. *)
Definition getWorkflowFromStringifiedWorkflowOrGraph
    (data : GraphAndWorkflowResponse) (templates : Templates)
    : Except ValidationResult :=
  match truthy (data_workflow data) with
  | Some workflow_text =>
      parsed ← JSON_parse_call workflow_text;
      validateWorkflow
        {| arg_workflow := parsed;
           arg_templates := templates;
           arg_checkImageAccess := checkImageAccess;
           arg_checkBoardAccess := checkBoardAccess;
           arg_checkModelAccess := checkModelAccess |}
  | None =>
      match truthy (data_graph data) with
      | Some graph_text =>
          parsed ← JSON_parse_call graph_text;
          workflow ← graphToWorkflow parsed true;
          validateWorkflow
            {| arg_workflow := workflow;
               arg_templates := templates;
               arg_checkImageAccess := checkImageAccess;
               arg_checkBoardAccess := checkBoardAccess;
               arg_checkModelAccess := checkModelAccess |}
      | None => mthrow (Error "No workflow or graph provided")
      end
  end.

(** Lines 48-118: the callback.  [Some workflow] is the returned workflow,
    [None] is [null]. *)
Definition loadWorkflow (data : GraphAndWorkflowResponse) : M (option WorkflowV3) :=
  try_catch
    (templates ← templates_get;
     r ← await (getWorkflowFromStringifiedWorkflowOrGraph data templates);
     let workflow := vr_workflow r in
     let warnings := vr_warnings r in
     nodeExecutionStates_set ∅;;
     dispatch (workflowLoaded workflow);;
     (if Nat.eqb (length warnings) 0 then
        toast {| toast_id := "WORKFLOW_LOADED";
                 toast_title := t "toast.workflowLoaded";
                 toast_status := StatusSuccess;
                 toast_description := None |}
      else
        (toast {| toast_id := "WORKFLOW_LOADED";
                  toast_title := t "toast.loadedWithWarnings";
                  toast_status := StatusWarning;
                  toast_description := None |};;
         forEach warnings
           (fun warning => log_warn (warning_rest warning) (warning_message warning))));;
     needsFit_set true;;
     mret (Some workflow))
    (fun e =>
       match e with
       | WorkflowVersionError message =>
           log_error (JsObject [("error", serializeError e)]) message;;
           toast {| toast_id := "UNABLE_TO_VALIDATE_WORKFLOW";
                    toast_title := t "nodes.unableToValidateWorkflow";
                    toast_status := StatusError;
                    toast_description := Some message |}
       | WorkflowMigrationError message =>
           log_error (JsObject [("error", serializeError e)]) message;;
           toast {| toast_id := "UNABLE_TO_VALIDATE_WORKFLOW";
                    toast_title := t "nodes.unableToValidateWorkflow";
                    toast_status := StatusError;
                    toast_description := Some message |}
       | ZodError issues =>
           let message := fromZodError issues (t "nodes.workflowValidation") in
           log_error (JsObject [("error", serializeError e)]) message;;
           toast {| toast_id := "UNABLE_TO_VALIDATE_WORKFLOW";
                    toast_title := t "nodes.unableToValidateWorkflow";
                    toast_status := StatusError;
                    toast_description := Some message |}
       | _ =>
           log_error (JsObject [("error", serializeError e)])
                     (t "nodes.unknownErrorValidatingWorkflow");;
           toast {| toast_id := "UNABLE_TO_VALIDATE_WORKFLOW";
                    toast_title := t "nodes.unableToValidateWorkflow";
                    toast_status := StatusError;
                    toast_description := Some (t "nodes.unknownErrorValidatingWorkflow") |}
       end;;
       mret None).

End Loader.

(** ** Reading a run *)

(** The value a run returned or threw, and the calls it made on top of the
    trace of the world it started in. *)
Definition returned {A : Type} (run : Except A * World) : Except A := fst run.

Definition world_after {A : Type} (run : Except A * World) : World := snd run.

Definition emitted {A : Type} (w : World) (run : Except A * World) : list Event :=
  drop (length (trace w)) (trace (world_after run)).

Definition toasts (events : list Event) : list Toast :=
  omap (fun ev => match ev with Toasted options => Some options | _ => None end) events.

Definition dispatches (events : list Event) : list Action :=
  omap (fun ev => match ev with Dispatched action => Some action | _ => None end) events.

Definition warn_logs (events : list Event) : list (JsValue * string) :=
  omap (fun ev => match ev with LogWarn c m => Some (c, m) | _ => None end) events.

Definition error_logs (events : list Event) : list (JsValue * string) :=
  omap (fun ev => match ev with LogError c m => Some (c, m) | _ => None end) events.

Definition resets (events : list Event) : list (gmap string JsValue) :=
  omap (fun ev => match ev with NodeExecutionStatesSet s => Some s | _ => None end) events.

Definition fit_flags (events : list Event) : list bool :=
  omap (fun ev => match ev with NeedsFitSet b => Some b | _ => None end) events.

(** ** The error kinds of the catch clause *)

(** The taxonomy of the specification (its section 7). *)
Inductive ErrorKind : Type :=
| MissingInputError
| MalformedInputError
| WorkflowVersionErrorKind
| WorkflowMigrationErrorKind
| SchemaValidationError
| UnknownError.

(** The kind under which the [catch] clause of [loadWorkflow] handles a
    thrown value: its three [instanceof] tests in order, then the final
    [else]. *)
Definition error_kind (e : JsThrown) : ErrorKind :=
  match e with
  | WorkflowVersionError _ => WorkflowVersionErrorKind
  | WorkflowMigrationError _ => WorkflowMigrationErrorKind
  | ZodError _ => SchemaValidationError
  | _ => UnknownError
  end.

Section Reports.
Context `{env : Collaborators}.

(** The two success toasts and the error toast with a given description. *)
Definition loaded_toast : Toast :=
  {| toast_id := "WORKFLOW_LOADED";
     toast_title := t "toast.workflowLoaded";
     toast_status := StatusSuccess;
     toast_description := None |}.

Definition loaded_with_warnings_toast : Toast :=
  {| toast_id := "WORKFLOW_LOADED";
     toast_title := t "toast.loadedWithWarnings";
     toast_status := StatusWarning;
     toast_description := None |}.

Definition unable_to_validate_toast (description : string) : Toast :=
  {| toast_id := "UNABLE_TO_VALIDATE_WORKFLOW";
     toast_title := t "nodes.unableToValidateWorkflow";
     toast_status := StatusError;
     toast_description := Some description |}.

(** The description that belongs to a thrown value, by kind. *)
Definition error_description (e : JsThrown) : string :=
  match e with
  | WorkflowVersionError message => message
  | WorkflowMigrationError message => message
  | ZodError issues => fromZodError issues (t "nodes.workflowValidation")
  | _ => t "nodes.unknownErrorValidatingWorkflow"
  end.

(** The two routes of the helper, each as the specification words it:
    parse the workflow text and validate it; parse the graph text, convert
    it with the given layout flag and validate the converted workflow. *)
Definition validation_args (doc : JsValue) (templates : Templates) : ValidateWorkflowArgs :=
  {| arg_workflow := doc;
     arg_templates := templates;
     arg_checkImageAccess := checkImageAccess;
     arg_checkBoardAccess := checkBoardAccess;
     arg_checkModelAccess := checkModelAccess |}.

Definition workflow_document (text : string) : Except JsValue :=
  match JSON_parse text with
  | inl message => inl (SyntaxError message)
  | inr parsed => inr parsed
  end.

Definition graph_document (text : string) (doLayout : bool) : Except JsValue :=
  match JSON_parse text with
  | inl message => inl (SyntaxError message)
  | inr parsed => graphToWorkflow parsed doLayout
  end.

Definition workflow_route (text : string) (templates : Templates) : Except ValidationResult :=
  match workflow_document text with
  | inl e => inl e
  | inr doc => validateWorkflow (validation_args doc templates)
  end.

Definition graph_route (text : string) (doLayout : bool) (templates : Templates)
    : Except ValidationResult :=
  match graph_document text doLayout with
  | inl e => inl e
  | inr doc => validateWorkflow (validation_args doc templates)
  end.

(** The document that reaches the validator: the parsed workflow text, or
    the converted parse of the graph text. *)
Definition document_to_validate (data : GraphAndWorkflowResponse) : Except JsValue :=
  match truthy (data_workflow data) with
  | Some text => workflow_document text
  | None =>
      match truthy (data_graph data) with
      | Some text => graph_document text true
      | None => inl (Error "No workflow or graph provided")
      end
  end.

(** The calls of a successful load and of a failed one, in order. *)
Definition warning_line (warning : ValidationWarning) : JsValue * string :=
  (warning_rest warning, warning_message warning).

Definition success_events (r : ValidationResult) : list Event :=
  [NodeExecutionStatesSet ∅;
   Dispatched (workflowLoaded (vr_workflow r));
   Toasted (match vr_warnings r with
            | [] => loaded_toast
            | _ :: _ => loaded_with_warnings_toast
            end)]
  ++ map (fun warning => LogWarn (warning_rest warning) (warning_message warning))
         (vr_warnings r)
  ++ [NeedsFitSet true].

Definition failure_events (e : JsThrown) : list Event :=
  [LogError (JsObject [("error", serializeError e)]) (error_description e);
   Toasted (unable_to_validate_toast (error_description e))].

(** Of a list of calls made one after the other: the calls that return,
    up to the first one that throws, and the value that one throws. *)
Fixpoint perform (calls : list Event) : list Event * option JsThrown :=
  match calls with
  | [] => ([], None)
  | this :: rest =>
      match throws this with
      | Some e => ([], Some e)
      | None => (this :: fst (perform rest), snd (perform rest))
      end
  end.

(** The world after the calls [made] of the [try] block, which ended by
    throwing [thrown] or by returning.  The reset is the first call and the
    fit flag the last. *)
Definition world_of_try (w : World) (made : list Event) (thrown : option JsThrown) : World :=
  {| atom_templates := atom_templates w;
     atom_nodeExecutionStates :=
       match made with
       | [] => atom_nodeExecutionStates w
       | _ :: _ => ∅
       end;
     atom_needsFit :=
       match thrown with
       | None => true
       | Some _ => atom_needsFit w
       end;
     trace := trace w ++ made |}.

End Reports.

(** ** The validator's version gate and migration chain *)

(** Member access [value.key]; of a repeated key the last member counts,
    as [JSON.parse] keeps it. *)
Fixpoint find_member (key : string) (members : list (string * JsValue)) : option JsValue :=
  match members with
  | [] => None
  | (k, v) :: rest =>
      match find_member key rest with
      | Some later => Some later
      | None => if String.eqb k key then Some v else None
      end
  end.

(** A value that is no object has no members. *)
Definition get_member (key : string) (value : JsValue) : option JsValue :=
  match value with
  | JsObject members => find_member key members
  | _ => None
  end.

(** Modelled from the spec: the validator [validateWorkflow] is imported
    from [features/nodes/util/workflow/validateWorkflow], which is not among
    the sources.  Section 3 gives a document a [version] field holding a
    string. *)
Definition declared_version (doc : JsValue) : option string :=
  match get_member "version" doc with
  | Some (JsString v) => Some v
  | _ => None
  end.

(** Modelled from the spec: the migration chain of section 4.3 and design
    note 9, "an explicit ordered list of (fromVersion, transform) pairs";
    a transform that cannot be applied returns [None].  [recognized] is the
    set of recognized versions, [latest] the current one. *)
Record MigrationChain : Type := {
  recognized : list string;
  latest : string;
  migrations : list (string * (JsValue -> option JsValue));
}.

(** Modelled from the spec: the message of [WorkflowVersionError], in the
    words of the table of section 7 (the error classes are imported from
    [features/nodes/types/error], which is not among the sources). *)
Definition version_not_recognized : string := "version not recognized".

(** Modelled from the spec: the message of [WorkflowMigrationError], from
    the same table. *)
Definition migration_failed : string := "migration failed".

(** Modelled from the spec: "look up the migration step registered for
    state". *)
Fixpoint registered_step (version : string)
    (steps : list (string * (JsValue -> option JsValue)))
    : option (JsValue -> option JsValue) :=
  match steps with
  | [] => None
  | (from, transform) :: rest =>
      if String.eqb from version then Some transform else registered_step version rest
  end.

(** Modelled from the spec: the state machine of section 4.3 over the
    declared version.  "If state is not the latest known version, look up
    the migration step registered for state, apply it, advance state.
    Repeat until state == latest."  A gap in the chain, a transform that
    cannot be applied and a walk that uses more steps than are registered
    all fail with [WorkflowMigrationError]. *)
Fixpoint migrate (chain : MigrationChain) (steps_left : nat) (doc : JsValue)
    : Except JsValue :=
  match declared_version doc with
  | None => mthrow (WorkflowMigrationError migration_failed)
  | Some state =>
      if String.eqb state (latest chain) then mret doc
      else
        match steps_left with
        | 0 => mthrow (WorkflowMigrationError migration_failed)
        | S steps_left' =>
            match registered_step state (migrations chain) with
            | None => mthrow (WorkflowMigrationError migration_failed)
            | Some transform =>
                match transform doc with
                | None => mthrow (WorkflowMigrationError migration_failed)
                | Some doc' => migrate chain steps_left' doc'
                end
            end
        end
  end.

(** Modelled from the spec: [validate] of section 4.3.  A starting version
    that is not recognized at all fails with [WorkflowVersionError]; a
    recognized one is walked to the latest version; what follows (schema,
    cross-reference and access validation of the current-version document)
    is the parameter [validate_current]. *)
Definition validateWorkflow_spec (chain : MigrationChain)
    (validate_current : ValidateWorkflowArgs -> Except ValidationResult)
    (args : ValidateWorkflowArgs) : Except ValidationResult :=
  match declared_version (arg_workflow args) with
  | None => mthrow (WorkflowVersionError version_not_recognized)
  | Some start =>
      if existsb (String.eqb start) (recognized chain) then
        doc ← migrate chain (length (migrations chain)) (arg_workflow args);
        validate_current
          {| arg_workflow := doc;
             arg_templates := arg_templates args;
             arg_checkImageAccess := arg_checkImageAccess args;
             arg_checkBoardAccess := arg_checkBoardAccess args;
             arg_checkModelAccess := arg_checkModelAccess args |}
      else mthrow (WorkflowVersionError version_not_recognized)
  end.

(** ** A sample environment *)

(** Concrete collaborators on which the loader can be run: a JSON reader
    for the grammar without escapes, fractions and exponents, a converter
    and a validator after the specification, the English texts of the
    translation keys the loader uses, and a world to start in. *)
Module Sample.

Definition dquote : ascii := ascii_of_nat 34.

Definition quoted (s : string) : string :=
  String dquote s +:+ String dquote EmptyString.

Definition is_ws (c : ascii) : bool :=
  let n := nat_of_ascii c in
  Nat.eqb n 32 || Nat.eqb n 9 || Nat.eqb n 10 || Nat.eqb n 13.

Fixpoint skip_ws (cs : list ascii) : list ascii :=
  match cs with
  | c :: rest => if is_ws c then skip_ws rest else cs
  | [] => []
  end.

Fixpoint strip_prefix (word cs : list ascii) : option (list ascii) :=
  match word, cs with
  | [], _ => Some cs
  | a :: word', c :: cs' => if Ascii.eqb a c then strip_prefix word' cs' else None
  | _ :: _, [] => None
  end.

(** The characters of a string literal after its opening quote, up to the
    closing one. *)
Fixpoint string_body (cs : list ascii) : option (list ascii * list ascii) :=
  match cs with
  | [] => None
  | c :: rest =>
      if Ascii.eqb c dquote then Some ([], rest)
      else if Ascii.eqb c "\"%char || Nat.ltb (nat_of_ascii c) 32 then None
      else '(body, rest') ← string_body rest; Some (c :: body, rest')
  end.

Definition digit_of (c : ascii) : option Z :=
  let n := nat_of_ascii c in
  if Nat.leb 48 n && Nat.leb n 57 then Some (Z.of_nat (n - 48)) else None.

Fixpoint digits (acc : Z) (cs : list ascii) : Z * list ascii :=
  match cs with
  | c :: rest =>
      match digit_of c with
      | Some d => digits (10 * acc + d) rest
      | None => (acc, cs)
      end
  | [] => (acc, [])
  end.

(** An integer literal: an optional minus, then [0] or a digit sequence
    without a leading zero. *)
Definition number (cs : list ascii) : option (Z * list ascii) :=
  let '(negative, cs1) :=
    match cs with
    | c :: rest => if Ascii.eqb c "-"%char then (true, rest) else (false, cs)
    | [] => (false, cs)
    end in
  match cs1 with
  | c :: rest =>
      match digit_of c with
      | Some d =>
          let '(n, rest') := if Z.eqb d 0 then (0%Z, rest) else digits d rest in
          Some (if negative then (- n)%Z else n, rest')
      | None => None
      end
  | [] => None
  end.

Section Composite.
Variable value : list ascii -> option (JsValue * list ascii).

(** After an element of an array: a comma and one more element, or the
    closing bracket. *)
Fixpoint elements_tail (fuel : nat) (cs : list ascii) : option (list JsValue * list ascii) :=
  match fuel with
  | 0 => None
  | S fuel' =>
      match skip_ws cs with
      | c :: rest =>
          if Ascii.eqb c "]"%char then Some ([], rest)
          else if Ascii.eqb c ","%char then
            '(v, rest1) ← value rest;
            '(vs, rest2) ← elements_tail fuel' rest1;
            Some (v :: vs, rest2)
          else None
      | [] => None
      end
  end.

Definition array_body (cs : list ascii) : option (list JsValue * list ascii) :=
  match skip_ws cs with
  | c :: rest =>
      if Ascii.eqb c "]"%char then Some ([], rest)
      else
        '(v, rest1) ← value cs;
        '(vs, rest2) ← elements_tail (S (length rest1)) rest1;
        Some (v :: vs, rest2)
  | [] => None
  end.

Definition member (cs : list ascii) : option ((string * JsValue) * list ascii) :=
  match skip_ws cs with
  | c :: rest =>
      if Ascii.eqb c dquote then
        '(key, rest1) ← string_body rest;
        match skip_ws rest1 with
        | c2 :: rest2 =>
            if Ascii.eqb c2 ":"%char then
              '(v, rest3) ← value rest2;
              Some ((String.string_of_list_ascii key, v), rest3)
            else None
        | [] => None
        end
      else None
  | [] => None
  end.

Fixpoint members_tail (fuel : nat) (cs : list ascii)
    : option (list (string * JsValue) * list ascii) :=
  match fuel with
  | 0 => None
  | S fuel' =>
      match skip_ws cs with
      | c :: rest =>
          if Ascii.eqb c "}"%char then Some ([], rest)
          else if Ascii.eqb c ","%char then
            '(m, rest1) ← member rest;
            '(ms, rest2) ← members_tail fuel' rest1;
            Some (m :: ms, rest2)
          else None
      | [] => None
      end
  end.

Definition object_body (cs : list ascii) : option (list (string * JsValue) * list ascii) :=
  match skip_ws cs with
  | c :: rest =>
      if Ascii.eqb c "}"%char then Some ([], rest)
      else
        '(m, rest1) ← member cs;
        '(ms, rest2) ← members_tail (S (length rest1)) rest1;
        Some (m :: ms, rest2)
  | [] => None
  end.

End Composite.

(** A JSON value at the head of [cs]; [depth] bounds the nesting. *)
Fixpoint value (depth : nat) (cs : list ascii) : option (JsValue * list ascii) :=
  match depth with
  | 0 => None
  | S depth' =>
      match skip_ws cs with
      | [] => None
      | c :: rest =>
          if Ascii.eqb c "["%char then
            '(vs, rest') ← array_body (value depth') rest; Some (JsArray vs, rest')
          else if Ascii.eqb c "{"%char then
            '(ms, rest') ← object_body (value depth') rest; Some (JsObject ms, rest')
          else if Ascii.eqb c dquote then
            '(body, rest') ← string_body rest;
            Some (JsString (String.string_of_list_ascii body), rest')
          else
            match strip_prefix (String.list_ascii_of_string "null") (c :: rest) with
            | Some rest' => Some (JsNull, rest')
            | None =>
            match strip_prefix (String.list_ascii_of_string "true") (c :: rest) with
            | Some rest' => Some (JsBool true, rest')
            | None =>
            match strip_prefix (String.list_ascii_of_string "false") (c :: rest) with
            | Some rest' => Some (JsBool false, rest')
            | None => '(n, rest') ← number (c :: rest); Some (JsNumber n, rest')
            end end end
      end
  end.

(** [JSON.parse]: one value, then only white space. *)
Definition parse (text : string) : string + JsValue :=
  let cs := String.list_ascii_of_string text in
  match value (S (length cs)) cs with
  | Some (v, rest) =>
      match skip_ws rest with
      | [] => inr v
      | _ :: _ => inl "Unexpected non-whitespace character after JSON"
      end
  | None => inl "Unexpected token or end of JSON input"
  end.

(** The English texts of the keys the loader translates; a key without a
    text is returned as it is. *)
Definition translate (key : string) : string :=
  if String.eqb key "toast.workflowLoaded" then "Workflow Loaded"
  else if String.eqb key "toast.loadedWithWarnings" then "Workflow Loaded with Warnings"
  else if String.eqb key "nodes.unableToValidateWorkflow" then "Unable to Validate Workflow"
  else if String.eqb key "nodes.workflowValidation" then "Workflow Validation Error"
  else if String.eqb key "nodes.unknownErrorValidatingWorkflow"
       then "Unknown error validating workflow"
  else key.

(** [serializeError]: the class name and the message of an error. *)
Definition serialize (e : JsThrown) : JsValue :=
  match e with
  | WorkflowVersionError m =>
      JsObject [("name", JsString "WorkflowVersionError"); ("message", JsString m)]
  | WorkflowMigrationError m =>
      JsObject [("name", JsString "WorkflowMigrationError"); ("message", JsString m)]
  | ZodError issues =>
      JsObject [("name", JsString "ZodError");
                ("issues", JsArray (map (fun i => JsString (issue_message i)) issues))]
  | SyntaxError m => JsObject [("name", JsString "SyntaxError"); ("message", JsString m)]
  | TypeError m => JsObject [("name", JsString "TypeError"); ("message", JsString m)]
  | Error m => JsObject [("name", JsString "Error"); ("message", JsString m)]
  | ThrownValue v => v
  end.

Fixpoint join (separator : string) (parts : list string) : string :=
  match parts with
  | [] => ""
  | [part] => part
  | part :: rest => part +:+ separator +:+ join separator rest
  end.

(** [fromZodError(e, { prefix }).message]: the prefix, then each issue as
    its message and path. *)
Definition zod_message (issues : list ZodIssue) (prefix : string) : string :=
  match issues with
  | [] => prefix
  | _ :: _ =>
      prefix +:+ ": " +:+
      join "; " (map (fun i => issue_message i +:+ " at " +:+ quoted (join "." (issue_path i)))
                     issues)
  end.

(** Versions ["1.0.0"], ["2.0.0"] and ["3.0.0"] are recognized, the last is
    current; a step is registered for ["2.0.0"] only, so ["1.0.0"] is known
    and cannot be bridged. *)
Definition set_version (version : string) (doc : JsValue) : option JsValue :=
  match doc with
  | JsObject members =>
      Some (JsObject (filter (fun m => negb (String.eqb (fst m) "version")) members
                      ++ [("version", JsString version)]))
  | _ => None
  end.

Definition chain : MigrationChain :=
  {| recognized := ["1.0.0"; "2.0.0"; "3.0.0"];
     latest := "3.0.0";
     migrations := [("2.0.0", set_version "3.0.0")] |}.

(** Modelled from the spec: the access rule of section 4.3 for one node
    (the validator's code is not among the sources).  A node whose [image]
    the image checker refuses gives one warning. *)
Definition image_warning (check : AccessCheck) (node : JsValue) : option ValidationWarning :=
  match get_member "image" node with
  | Some (JsString name) =>
      if check name then None
      else Some {| warning_message := "Image not accessible";
                   warning_rest := JsObject [("image", JsString name)] |}
  | _ => None
  end.

(** Modelled from the spec: what section 4.3 asks of a current-version
    document, cut down to one structural rule and the access rule above
    (the validator's code is not among the sources).  The document must
    hold an array [nodes], or validation fails with a schema error on that
    path; refused images give warnings and do not block the load. *)
Definition validate_current (args : ValidateWorkflowArgs) : Except ValidationResult :=
  match get_member "nodes" (arg_workflow args) with
  | Some (JsArray nodes) =>
      mret {| vr_workflow := arg_workflow args;
              vr_warnings := omap (image_warning (arg_checkImageAccess args)) nodes |}
  | _ =>
      mthrow (ZodError [{| issue_code := "invalid_type";
                           issue_path := ["nodes"];
                           issue_message := "Required" |}])
  end.

(** Modelled from the spec: the placement of section 4.2 ([graphToWorkflow]
    is imported from [features/nodes/util/workflow/graphToWorkflow], which
    is not among the sources).  With [doLayout] a node gets a position. *)
Definition place (doLayout : bool) (node : JsValue) : JsValue :=
  match node with
  | JsObject members =>
      if doLayout then
        JsObject (members ++ [("position", JsObject [("x", JsNumber 0); ("y", JsNumber 0)])])
      else node
  | _ => node
  end.

(** The array under [key], or no items. *)
Definition array_member (key : string) (value : JsValue) : list JsValue :=
  match get_member key value with
  | Some (JsArray items) => items
  | _ => []
  end.

(** Modelled from the spec: the converter [graphToWorkflow] of section
    4.2, whose code is not among the sources.  A [null] or empty graph
    becomes an empty workflow; every node and every edge is kept; the
    converted workflow is stamped with the current version.  The sample
    refuses a value that is neither [null] nor an object. *)
Definition convert (graph : JsValue) (doLayout : bool) : Except WorkflowV3 :=
  match graph with
  | JsNull | JsObject _ =>
      mret (JsObject [("version", JsString (latest chain));
                      ("nodes", JsArray (map (place doLayout) (array_member "nodes" graph)));
                      ("edges", JsArray (array_member "edges" graph))])
  | _ => mthrow (TypeError "Cannot read properties of graph")
  end.

(** Every image but ["private.png"] is accessible, and so is every board
    and every model; no call into the stores, the toaster or the logger
    throws. *)
Definition env : Collaborators :=
  {| t := translate;
     serializeError := serialize;
     fromZodError := zod_message;
     JSON_parse := parse;
     graphToWorkflow := convert;
     validateWorkflow := validateWorkflow_spec chain validate_current;
     checkImageAccess := fun name => negb (String.eqb name "private.png");
     checkBoardAccess := fun _ => true;
     checkModelAccess := fun _ => true;
     throws := fun _ => None;
     error_toast_returns := fun _ _ => eq_refl |}.

(** A world with execution states of an earlier run and the fit flag
    down. *)
Definition w0 : World :=
  {| atom_templates := {["noop" := JsObject []]};
     atom_nodeExecutionStates := {["a" := JsString "COMPLETED"]};
     atom_needsFit := false;
     trace := [] |}.

(** Texts to load. *)
Definition member_text (key value : string) : string := quoted key +:+ ":" +:+ value.

Definition empty_workflow_text (version : string) : string :=
  "{" +:+ member_text "version" (quoted version) +:+ ","
      +:+ member_text "nodes" "[]" +:+ ","
      +:+ member_text "edges" "[]" +:+ "}".

Definition image_workflow_text : string :=
  "{" +:+ member_text "version" (quoted "3.0.0") +:+ ","
      +:+ member_text "nodes"
            ("[{" +:+ member_text "id" (quoted "a") +:+ ","
                  +:+ member_text "image" (quoted "private.png") +:+ "},{"
                  +:+ member_text "id" (quoted "b") +:+ ","
                  +:+ member_text "image" (quoted "private.png") +:+ "}]") +:+ ","
      +:+ member_text "edges" "[]" +:+ "}".

Definition noop_graph_text : string :=
  "{" +:+ member_text "nodes"
            ("[{" +:+ member_text "id" (quoted "a") +:+ ","
                  +:+ member_text "type" (quoted "noop") +:+ "}]") +:+ ","
      +:+ member_text "edges" "[]" +:+ "}".

Definition no_nodes_text : string :=
  "{" +:+ member_text "version" (quoted "3.0.0") +:+ "}".

End Sample.

(** ** Inputs of the sample environment *)

Module Inputs.
Import Sample.

Definition current_workflow : GraphAndWorkflowResponse :=
  {| data_workflow := Some (empty_workflow_text "3.0.0"); data_graph := None |}.

Definition workflow_with_private_images : GraphAndWorkflowResponse :=
  {| data_workflow := Some image_workflow_text; data_graph := None |}.

Definition workflow_without_nodes : GraphAndWorkflowResponse :=
  {| data_workflow := Some no_nodes_text; data_graph := None |}.

Definition workflow_of_version (version : string) : GraphAndWorkflowResponse :=
  {| data_workflow := Some (empty_workflow_text version); data_graph := None |}.

Definition graph_only : GraphAndWorkflowResponse :=
  {| data_workflow := None; data_graph := Some noop_graph_text |}.

Definition empty_workflow_and_graph : GraphAndWorkflowResponse :=
  {| data_workflow := Some ""; data_graph := Some noop_graph_text |}.

Definition workflow_and_broken_graph : GraphAndWorkflowResponse :=
  {| data_workflow := Some (empty_workflow_text "3.0.0"); data_graph := Some "not json" |}.

Definition broken_workflow : GraphAndWorkflowResponse :=
  {| data_workflow := Some "not json"; data_graph := Some noop_graph_text |}.

Definition nothing : GraphAndWorkflowResponse :=
  {| data_workflow := None; data_graph := None |}.

End Inputs.

(** ** More worlds and inputs of the sample environment *)

Module MoreInputs.
Import Sample.

(** A world with the templates of [w0] and everything else different: no
    execution states, the fit flag up, and a call already on the trace. *)
Definition w1 : World :=
  {| atom_templates := atom_templates w0;
     atom_nodeExecutionStates := ∅;
     atom_needsFit := true;
     trace := [NeedsFitSet true] |}.

(** A graph text that parses to a number, which the sample converter
    refuses. *)
Definition number_graph : GraphAndWorkflowResponse :=
  {| data_workflow := None; data_graph := Some "7" |}.

(** A workflow text beside an empty graph text. *)
Definition workflow_and_empty_graph : GraphAndWorkflowResponse :=
  {| data_workflow := Some (empty_workflow_text "3.0.0"); data_graph := Some "" |}.

End MoreInputs.

(** ** Sample environments with a collaborator that throws *)

Module Faults.

(** A store whose reducer throws on every dispatch. *)
Definition dispatch_throws (this : Event) : option JsThrown :=
  match this with
  | Dispatched _ => Some (Error "reducer failed")
  | _ => None
  end.

(** A fit atom whose listener throws on every write. *)
Definition needsFit_throws (this : Event) : option JsThrown :=
  match this with
  | NeedsFitSet _ => Some (Error "listener failed")
  | _ => None
  end.

(** The sample environment with the given throwing calls. *)
Definition env_with (thrown : Event -> option JsThrown)
    (report_returns : forall options,
       toast_status options = StatusError -> thrown (Toasted options) = None)
    : Collaborators :=
  {| t := Sample.translate;
     serializeError := Sample.serialize;
     fromZodError := Sample.zod_message;
     JSON_parse := Sample.parse;
     graphToWorkflow := Sample.convert;
     validateWorkflow := validateWorkflow_spec Sample.chain Sample.validate_current;
     checkImageAccess := fun name => negb (String.eqb name "private.png");
     checkBoardAccess := fun _ => true;
     checkModelAccess := fun _ => true;
     throws := thrown;
     error_toast_returns := report_returns |}.

Definition env_dispatch : Collaborators := env_with dispatch_throws (fun _ _ => eq_refl).

Definition env_needsFit : Collaborators := env_with needsFit_throws (fun _ _ => eq_refl).

End Faults.

(** ** The main-model field of a CogView4 node *)

(** The change handler of [CogView4MainModelFieldInputComponent]
    ([src/unnamed/part_000], lines 18-36).  The store is modelled by the
    list of the actions dispatched to it, oldest first. *)
Module CogView4.

(** [props.field]: the field instance, with its name and current value. *)
Record FieldInstance : Type := {
  name : string;
  value : option JsValue;
}.

(** The part of [Props] the handler reads. *)
Record Props : Type := {
  nodeId : string;
  field : FieldInstance;
}.

(** The action creator [fieldMainModelValueChanged] with its payload. *)
Inductive NodesAction : Type :=
| fieldMainModelValueChanged (nodeId fieldName : string) (value : JsValue).

(** [_onChange(value)], lines 22-36: a [null] value returns at once, any
    other value is dispatched with the node id and the field name of the
    props. *)
Definition _onChange (props : Props) (value : option JsValue)
    (dispatched : list NodesAction) : list NodesAction :=
  match value with
  | None => dispatched
  | Some model =>
      dispatched ++ [fieldMainModelValueChanged (nodeId props) (name (field props)) model]
  end.

(** The handler called once for each change of a sequence, in order. *)
Definition changes (props : Props) (values : list (option JsValue))
    (dispatched : list NodesAction) : list NodesAction :=
  fold_left (fun store value => _onChange props value store) values dispatched.

End CogView4.

(** * Properties *)

Section LoaderFacts.
Context `{env : Collaborators}.

Lemma emit_nil (w : World) : emit [] w = w.
Proof. destruct w; unfold emit; simpl. by rewrite app_nil_r. Qed.

Lemma emit_emit (later earlier : list Event) (w : World) :
  emit later (emit earlier w) = emit (earlier ++ later) w.
Proof. unfold emit; simpl. by rewrite app_assoc. Qed.

Lemma emitted_app {A : Type} (w w' : World) (outcome : Except A) (events : list Event) :
  trace w' = trace w ++ events -> emitted w (outcome, w') = events.
Proof.
  intros Htrace. unfold emitted, world_after; simpl.
  rewrite Htrace. by rewrite drop_app_length.
Qed.

(** Calls that all return are all made. *)
Lemma perform_returns (calls : list Event) :
  snd (perform calls) = None -> fst (perform calls) = calls.
Proof.
  induction calls as [|this rest IH]; simpl; [done|].
  destruct (throws this); simpl; [discriminate|]. intros Hrest. by rewrite IH.
Qed.

Lemma perform_app (first second : list Event) :
  perform (first ++ second)
  = match snd (perform first) with
    | Some e => (fst (perform first), Some e)
    | None => (first ++ fst (perform second), snd (perform second))
    end.
Proof.
  induction first as [|this rest IH]; simpl.
  - by destruct (perform second).
  - destruct (throws this); simpl; [done|]. rewrite IH.
    by destruct (snd (perform rest)).
Qed.


Lemma forEach_log_warn (warnings : list ValidationWarning) (w : World) :
  forEach warnings
    (fun warning => log_warn (warning_rest warning) (warning_message warning)) w
  = let calls := map (fun warning => LogWarn (warning_rest warning) (warning_message warning))
                     warnings in
    (match snd (perform calls) with
     | Some e => inl e
     | None => inr tt
     end,
     emit (fst (perform calls)) w).
Proof.
  revert w. induction warnings as [|warning rest IH]; intros w; simpl.
  - by rewrite emit_nil.
  - unfold mbind, M_bind, log_warn, call.
    destruct (throws (LogWarn (warning_rest warning) (warning_message warning))); simpl.
    + by rewrite emit_nil.
    + rewrite IH. simpl. rewrite emit_emit.
      by destruct (snd (perform _)).
Qed.

(** The helper validates the document that [document_to_validate] selects. *)
Lemma getWorkflow_factors (data : GraphAndWorkflowResponse) (templates : Templates) :
  getWorkflowFromStringifiedWorkflowOrGraph data templates
  = match document_to_validate data with
    | inl e => inl e
    | inr doc => validateWorkflow (validation_args doc templates)
    end.
Proof.
  unfold getWorkflowFromStringifiedWorkflowOrGraph, document_to_validate,
    workflow_document, graph_document, JSON_parse_call, validation_args.
  destruct (truthy (data_workflow data)) as [text|].
  - destruct (JSON_parse text); reflexivity.
  - destruct (truthy (data_graph data)) as [text|]; [|reflexivity].
    destruct (JSON_parse text) as [message|parsed]; [reflexivity|].
    simpl. unfold mbind, Except_bind.
    destruct (graphToWorkflow parsed true); reflexivity.
Qed.

(** The catch clause: one error line and the error toast. *)
Ltac report_thrown e :=
  destruct e; unfold mbind, M_bind, log_error, toast, call; simpl;
  rewrite error_toast_returns by reflexivity;
  unfold mret, M_ret; by rewrite emit_emit.

(** Two worlds that differ in how their traces are bracketed. *)
Ltac settle_world :=
  unfold emit, mret, M_ret; simpl; rewrite <- ?app_assoc, ?app_nil_r; reflexivity.

(** A run whose helper throws. *)
Lemma loadWorkflow_failure (data : GraphAndWorkflowResponse) (w : World) (e : JsThrown) :
  getWorkflowFromStringifiedWorkflowOrGraph data (atom_templates w) = inl e ->
  loadWorkflow data w = (inr None, emit (failure_events e) w).
Proof.
  intros Hget.
  unfold loadWorkflow, try_catch. unfold mbind at 1, M_bind at 1, templates_get.
  unfold mbind at 1, M_bind at 1, await. rewrite Hget.
  unfold failure_events, error_description, unable_to_validate_toast.
  report_thrown e.
Qed.

(** A run whose helper resolves: the calls of a successful load are made
    up to the first that throws, which the catch clause reports. *)
Lemma loadWorkflow_resolved (data : GraphAndWorkflowResponse) (w : World) (r : ValidationResult) :
  getWorkflowFromStringifiedWorkflowOrGraph data (atom_templates w) = inr r ->
  loadWorkflow data w
  = let made := fst (perform (success_events r)) in
    let thrown := snd (perform (success_events r)) in
    match thrown with
    | None => (inr (Some (vr_workflow r)), world_of_try w made thrown)
    | Some e => (inr None, emit (failure_events e) (world_of_try w made thrown))
    end.
Proof.
  intros Hget.
  assert (Hreport : forall e w',
    (match e with
     | WorkflowVersionError message =>
         log_error (JsObject [("error", serializeError e)]) message;;
         toast (unable_to_validate_toast message)
     | WorkflowMigrationError message =>
         log_error (JsObject [("error", serializeError e)]) message;;
         toast (unable_to_validate_toast message)
     | ZodError issues =>
         log_error (JsObject [("error", serializeError e)])
                   (fromZodError issues (t "nodes.workflowValidation"));;
         toast (unable_to_validate_toast (fromZodError issues (t "nodes.workflowValidation")))
     | _ =>
         log_error (JsObject [("error", serializeError e)])
                   (t "nodes.unknownErrorValidatingWorkflow");;
         toast (unable_to_validate_toast (t "nodes.unknownErrorValidatingWorkflow"))
     end;; mret None) w'
    = (inr (None : option WorkflowV3), emit (failure_events e) w')).
  { intros e w'. unfold failure_events, error_description, unable_to_validate_toast.
    report_thrown e. }
  unfold loadWorkflow, try_catch. unfold mbind at 1, M_bind at 1, templates_get.
  unfold mbind at 1, M_bind at 1, await. rewrite Hget.
  match goal with
  | |- (let (_, _) := ?body w in _) = _ =>
      assert (Hbody : body w
                      = (match snd (perform (success_events r)) with
                         | None => inr (Some (vr_workflow r))
                         | Some e => inl e
                         end,
                         world_of_try w (fst (perform (success_events r)))
                                      (snd (perform (success_events r)))))
  end.
  { unfold success_events, world_of_try.
    unfold nodeExecutionStates_set, dispatch, toast, needsFit_set, call, mbind, M_bind.
    cbn [perform app fst snd].
    destruct (throws (NodeExecutionStatesSet ∅)); cbn [fst snd].
    { destruct w; simpl. by rewrite app_nil_r. }
    destruct (throws (Dispatched (workflowLoaded (vr_workflow r)))); cbn [fst snd];
      [settle_world|].
    destruct (vr_warnings r) as [|warning rest]; cbn -[forEach perform map app].
    - unfold loaded_toast.
      destruct (throws (Toasted _)); cbn [fst snd]; [settle_world|].
      cbn [map app perform].
      destruct (throws (NeedsFitSet true)); cbn [fst snd]; settle_world.
    - unfold loaded_with_warnings_toast.
      destruct (throws (Toasted _)); cbn [fst snd]; [settle_world|].
      rewrite forEach_log_warn. cbn zeta.
      rewrite (perform_app
                 (map (fun x => LogWarn (warning_rest x) (warning_message x)) (warning :: rest))
                 [NeedsFitSet true]).
      destruct (snd (perform (map _ (warning :: rest)))) eqn:Hwarn; cbn [fst snd];
        [settle_world|].
      cbn [perform]. rewrite (perform_returns _ Hwarn).
      destruct (throws (NeedsFitSet true)); cbn [fst snd]; settle_world. }
  rewrite Hbody.
  destruct (snd (perform (success_events r))) as [e|]; [|reflexivity].
  exact (Hreport e _).
Qed.

(** A run whose helper resolves and whose calls all return. *)
Lemma loadWorkflow_success (data : GraphAndWorkflowResponse) (w : World) (r : ValidationResult) :
  getWorkflowFromStringifiedWorkflowOrGraph data (atom_templates w) = inr r ->
  snd (perform (success_events r)) = None ->
  loadWorkflow data w
  = (inr (Some (vr_workflow r)),
     {| atom_templates := atom_templates w;
        atom_nodeExecutionStates := ∅;
        atom_needsFit := true;
        trace := trace w ++ success_events r |}).
Proof.
  intros Hget Hreturns. rewrite (loadWorkflow_resolved _ _ _ Hget). cbn zeta.
  rewrite Hreturns, (perform_returns _ Hreturns). reflexivity.
Qed.

(** A run that returns a workflow is one whose helper resolved with it and
    whose calls all returned. *)
Lemma returned_workflow (data : GraphAndWorkflowResponse) (w : World) (workflow : WorkflowV3) :
  returned (loadWorkflow data w) = inr (Some workflow) ->
  exists r, getWorkflowFromStringifiedWorkflowOrGraph data (atom_templates w) = inr r
            /\ vr_workflow r = workflow
            /\ snd (perform (success_events r)) = None.
Proof.
  destruct (getWorkflowFromStringifiedWorkflowOrGraph data (atom_templates w))
    as [e|r] eqn:Hget.
  - rewrite (loadWorkflow_failure _ _ _ Hget). discriminate.
  - rewrite (loadWorkflow_resolved _ _ _ Hget). cbn zeta.
    destruct (snd (perform (success_events r))) eqn:Hthrown; [discriminate|].
    intros [= <-]. eauto.
Qed.

Lemma calls_returned (data : GraphAndWorkflowResponse) (w : World) (r : ValidationResult) :
  getWorkflowFromStringifiedWorkflowOrGraph data (atom_templates w) = inr r ->
  returned (loadWorkflow data w) = inr (Some (vr_workflow r)) ->
  snd (perform (success_events r)) = None.
Proof.
  intros Hget Hreturned.
  destruct (returned_workflow _ _ _ Hreturned) as (r' & Hget' & _ & Hreturns).
  rewrite Hget in Hget'. by injection Hget' as <-.
Qed.

Lemma emitted_success (data : GraphAndWorkflowResponse) (w : World) (r : ValidationResult) :
  getWorkflowFromStringifiedWorkflowOrGraph data (atom_templates w) = inr r ->
  snd (perform (success_events r)) = None ->
  emitted w (loadWorkflow data w) = success_events r.
Proof.
  intros Hget Hreturns. rewrite (loadWorkflow_success _ _ _ Hget Hreturns).
  by apply emitted_app.
Qed.

Lemma emitted_failure (data : GraphAndWorkflowResponse) (w : World) (e : JsThrown) :
  getWorkflowFromStringifiedWorkflowOrGraph data (atom_templates w) = inl e ->
  emitted w (loadWorkflow data w) = failure_events e.
Proof.
  intros Hget. rewrite (loadWorkflow_failure _ _ _ Hget). by apply emitted_app.
Qed.

(** Warning lines are neither toasts nor dispatches nor atom writes. *)
Lemma omap_map_none {A B C : Type} (f : A -> B) (g : B -> option C) (xs : list A) :
  (forall x, g (f x) = None) -> omap g (map f xs) = [].
Proof.
  intros Hnone. induction xs as [|x rest IH]; simpl; [done|].
  by rewrite Hnone.
Qed.

Lemma toasts_success (r : ValidationResult) :
  toasts (success_events r)
  = [match vr_warnings r with
     | [] => loaded_toast
     | _ :: _ => loaded_with_warnings_toast
     end].
Proof.
  unfold success_events, toasts. rewrite !omap_app, omap_map_none; done.
Qed.

Lemma warn_logs_success (r : ValidationResult) :
  warn_logs (success_events r) = map warning_line (vr_warnings r).
Proof.
  unfold success_events, warn_logs. rewrite !omap_app. simpl. rewrite app_nil_r.
  induction (vr_warnings r) as [|warning rest IH]; simpl; [done|].
  f_equal. exact IH.
Qed.

End LoaderFacts.

(** Membership in the recognized set, as the validator tests it. *)
Lemma recognized_existsb (version : string) (versions : list string) :
  existsb (String.eqb version) versions = true <-> version ∈ versions.
Proof.
  rewrite existsb_exists, list_elem_of_In. split.
  - intros (v & Hin & Heq). apply String.eqb_eq in Heq. by subst.
  - intros Hin. exists version. split; [done|]. apply String.eqb_refl.
Qed.

(** Whatever makes the walk fail, it fails with the migration error. *)
Lemma migrate_failure (chain : MigrationChain) (steps_left : nat) (doc : JsValue) (e : JsThrown) :
  migrate chain steps_left doc = inl e -> e = WorkflowMigrationError migration_failed.
Proof.
  revert doc. induction steps_left as [|n IH]; intros doc; simpl.
  - destruct (declared_version doc) as [state|]; [|by intros [= <-]].
    destruct (String.eqb state (latest chain)); [discriminate|by intros [= <-]].
  - destruct (declared_version doc) as [state|]; [|by intros [= <-]].
    destruct (String.eqb state (latest chain)); [discriminate|].
    destruct (registered_step state (migrations chain)) as [transform|]; [|by intros [= <-]].
    destruct (transform doc) as [doc'|]; [apply IH|by intros [= <-]].
Qed.

(** The catch clause has four branches: no thrown value is handled under
    one of the two input kinds of the taxonomy. *)
Lemma error_kind_of_the_catch_clause (e : JsThrown) :
  error_kind e <> MissingInputError /\ error_kind e <> MalformedInputError.
Proof. destruct e; split; discriminate. Qed.

Section Claims.
Context `{env : Collaborators}.

(** Rewrite a run, and the calls it made, by the outcome of its helper. *)
Ltac failed_run Hget :=
  rewrite ?(emitted_failure _ _ _ Hget), ?(loadWorkflow_failure _ _ _ Hget).

Ltac successful_run Hget Hreturns :=
  rewrite ?(emitted_success _ _ _ Hget Hreturns),
          ?(loadWorkflow_success _ _ _ Hget Hreturns).

(** C1.  Whatever the input, [loadWorkflow] returns and does not throw.
    When parsing, conversion or validation throws [e], the catch clause
    issues exactly one toast, the error toast whose description belongs to
    [e], and [null] is returned. *)
Theorem loadWorkflow_catches_every_error (data : GraphAndWorkflowResponse) (w : World) :
  (exists result, returned (loadWorkflow data w) = inr result) /\
  (forall e,
     getWorkflowFromStringifiedWorkflowOrGraph data (atom_templates w) = inl e ->
     returned (loadWorkflow data w) = inr None /\
     toasts (emitted w (loadWorkflow data w))
     = [unable_to_validate_toast (error_description e)]).
Proof.
  split.
  - destruct (getWorkflowFromStringifiedWorkflowOrGraph data (atom_templates w))
      as [e|r] eqn:Hget.
    + failed_run Hget. by exists None.
    + rewrite (loadWorkflow_resolved _ _ _ Hget). cbn zeta.
      destruct (snd (perform (success_events r))); by eexists.
  - intros e Hget. by failed_run Hget.
Qed.

(** C2, amended.  A workflow field that holds a non-empty string is parsed
    and validated, whatever the graph field holds.  When the workflow field
    is [null] or the empty string and the graph field holds a non-empty
    string, the graph is parsed, converted with layout enabled and the
    converted workflow is validated. *)
Theorem route_by_truthiness (data : GraphAndWorkflowResponse) (templates : Templates) :
  (forall text,
     data_workflow data = Some text -> text <> "" ->
     getWorkflowFromStringifiedWorkflowOrGraph data templates
     = workflow_route text templates) /\
  (forall text,
     data_workflow data = None \/ data_workflow data = Some "" ->
     data_graph data = Some text -> text <> "" ->
     getWorkflowFromStringifiedWorkflowOrGraph data templates
     = graph_route text true templates).
Proof.
  split.
  - intros text Hworkflow Hnonempty.
    rewrite getWorkflow_factors. unfold document_to_validate, workflow_route.
    rewrite Hworkflow. by destruct text.
  - intros text Hworkflow Hgraph Hnonempty.
    rewrite getWorkflow_factors. unfold document_to_validate, graph_route.
    rewrite Hgraph. destruct Hworkflow as [-> | ->]; by destruct text.
Qed.

(** C3, amended.  When neither field holds a non-empty string, the helper
    throws the plain error "No workflow or graph provided".  The catch
    clause has no branch of its own for it: it is handled by the final
    [else], as any unknown error is, with the log message and the toast
    description of an unknown error, and [null] is returned. *)
Theorem missing_input_is_reported_as_unknown (data : GraphAndWorkflowResponse) (w : World) :
  truthy (data_workflow data) = None ->
  truthy (data_graph data) = None ->
  let e := Error "No workflow or graph provided" in
  getWorkflowFromStringifiedWorkflowOrGraph data (atom_templates w) = inl e /\
  error_kind e = UnknownError /\
  returned (loadWorkflow data w) = inr None /\
  emitted w (loadWorkflow data w)
  = [LogError (JsObject [("error", serializeError e)])
              (t "nodes.unknownErrorValidatingWorkflow");
     Toasted (unable_to_validate_toast (t "nodes.unknownErrorValidatingWorkflow"))].
Proof.
  intros Hworkflow Hgraph e.
  assert (Hget : getWorkflowFromStringifiedWorkflowOrGraph data (atom_templates w) = inl e).
  { unfold getWorkflowFromStringifiedWorkflowOrGraph. by rewrite Hworkflow, Hgraph. }
  by failed_run Hget.
Qed.

(** C4, amended.  The text that is parsed is the workflow when that is a
    non-empty string, otherwise the graph when that is a non-empty string.
    When this text is not JSON, the helper throws the parser's
    [SyntaxError]; the catch clause handles it by the final [else], as any
    unknown error, and [null] is returned. *)
Theorem unparseable_text_is_reported_as_unknown
    (data : GraphAndWorkflowResponse) (w : World) (text message : string) :
  truthy (data_workflow data) = Some text
  \/ (truthy (data_workflow data) = None /\ truthy (data_graph data) = Some text) ->
  JSON_parse text = inl message ->
  let e := SyntaxError message in
  getWorkflowFromStringifiedWorkflowOrGraph data (atom_templates w) = inl e /\
  error_kind e = UnknownError /\
  returned (loadWorkflow data w) = inr None /\
  emitted w (loadWorkflow data w)
  = [LogError (JsObject [("error", serializeError e)])
              (t "nodes.unknownErrorValidatingWorkflow");
     Toasted (unable_to_validate_toast (t "nodes.unknownErrorValidatingWorkflow"))].
Proof.
  intros Hselected Hparse e.
  assert (Hget : getWorkflowFromStringifiedWorkflowOrGraph data (atom_templates w) = inl e).
  { unfold getWorkflowFromStringifiedWorkflowOrGraph, JSON_parse_call.
    destruct Hselected as [-> | [-> ->]]; by rewrite Hparse. }
  by failed_run Hget.
Qed.

(** C5.  The one toast of a failed load is the error toast, and its
    description follows the class of the thrown value: the error's own
    message for a [WorkflowVersionError] and for a [WorkflowMigrationError],
    the message that [fromZodError] builds with the workflow-validation
    prefix for a [ZodError], and the translated unknown-error text for
    everything else. *)
Theorem description_by_error_class
    (data : GraphAndWorkflowResponse) (w : World) (e : JsThrown) :
  getWorkflowFromStringifiedWorkflowOrGraph data (atom_templates w) = inl e ->
  exists description,
    toasts (emitted w (loadWorkflow data w)) = [unable_to_validate_toast description] /\
    (forall message, e = WorkflowVersionError message -> description = message) /\
    (forall message, e = WorkflowMigrationError message -> description = message) /\
    (forall issues, e = ZodError issues ->
       description = fromZodError issues (t "nodes.workflowValidation")) /\
    ((forall message, e <> WorkflowVersionError message) ->
     (forall message, e <> WorkflowMigrationError message) ->
     (forall issues, e <> ZodError issues) ->
     description = t "nodes.unknownErrorValidatingWorkflow").
Proof.
  intros Hget. exists (error_description e).
  split; [by failed_run Hget|].
  repeat split.
  - by intros message ->.
  - by intros message ->.
  - by intros issues ->.
  - intros Hversion Hmigration Hzod.
    destruct e as [message|message|issues| | | |]; try reflexivity.
    + by destruct (Hversion message).
    + by destruct (Hmigration message).
    + by destruct (Hzod issues).
Qed.

(** C6.  A successful load, one that returns the workflow that validation
    produced, issues exactly one toast: the "loaded" toast when validation
    gave no warning, the "loaded with warnings" toast otherwise, and the two
    differ.  Every warning is written to the log as a line of its own, in
    order; the number of toasts is one whatever the number of warnings. *)
Theorem one_success_toast (data : GraphAndWorkflowResponse) (w : World) (r : ValidationResult) :
  getWorkflowFromStringifiedWorkflowOrGraph data (atom_templates w) = inr r ->
  returned (loadWorkflow data w) = inr (Some (vr_workflow r)) ->
  toasts (emitted w (loadWorkflow data w))
  = [match vr_warnings r with
     | [] => loaded_toast
     | _ :: _ => loaded_with_warnings_toast
     end] /\
  loaded_toast <> loaded_with_warnings_toast /\
  warn_logs (emitted w (loadWorkflow data w)) = map warning_line (vr_warnings r) /\
  length (warn_logs (emitted w (loadWorkflow data w))) = length (vr_warnings r) /\
  length (toasts (emitted w (loadWorkflow data w))) = 1.
Proof.
  intros Hget Hreturned.
  pose proof (calls_returned _ _ _ Hget Hreturned) as Hreturns.
  successful_run Hget Hreturns.
  rewrite toasts_success, warn_logs_success.
  repeat split; [discriminate|]. by rewrite length_map.
Qed.

(** C7.  A successful load, one that returns the workflow that validation
    produced, publishes it with one [workflowLoaded] dispatch, sets the
    execution states to the empty record, which is what the atom then holds,
    and raises the fit flag. *)
Theorem success_side_effects (data : GraphAndWorkflowResponse) (w : World) (r : ValidationResult) :
  getWorkflowFromStringifiedWorkflowOrGraph data (atom_templates w) = inr r ->
  returned (loadWorkflow data w) = inr (Some (vr_workflow r)) ->
  dispatches (emitted w (loadWorkflow data w)) = [workflowLoaded (vr_workflow r)] /\
  resets (emitted w (loadWorkflow data w)) = [∅] /\
  atom_nodeExecutionStates (world_after (loadWorkflow data w)) = ∅ /\
  fit_flags (emitted w (loadWorkflow data w)) = [true] /\
  atom_needsFit (world_after (loadWorkflow data w)) = true.
Proof.
  intros Hget Hreturned.
  pose proof (calls_returned _ _ _ Hget Hreturned) as Hreturns.
  successful_run Hget Hreturns.
  unfold success_events, dispatches, resets, fit_flags.
  rewrite !omap_app, !omap_map_none; done.
Qed.

(** C8.  With a validator that gates and migrates as section 4.3 says: a
    document whose declared version is not recognized makes the load return
    [null] after logging and showing the version error's message; a
    document whose version is recognized and whose walk to the latest
    version fails makes it return [null] after logging and showing the
    migration error's message.  The two errors are of different classes,
    carry different messages, and neither is handled as a schema error or
    as an unknown error. *)
Theorem version_and_migration_errors
    (chain : MigrationChain)
    (validate_current : ValidateWorkflowArgs -> Except ValidationResult)
    (data : GraphAndWorkflowResponse) (w : World) (doc : JsValue) (start : string) :
  (forall args, validateWorkflow args = validateWorkflow_spec chain validate_current args) ->
  document_to_validate data = inr doc ->
  declared_version doc = Some start ->
  (start ∉ recognized chain ->
     let e := WorkflowVersionError version_not_recognized in
     getWorkflowFromStringifiedWorkflowOrGraph data (atom_templates w) = inl e /\
     returned (loadWorkflow data w) = inr None /\
     emitted w (loadWorkflow data w)
     = [LogError (JsObject [("error", serializeError e)]) version_not_recognized;
        Toasted (unable_to_validate_toast version_not_recognized)]) /\
  (start ∈ recognized chain ->
   forall failure, migrate chain (length (migrations chain)) doc = inl failure ->
     let e := WorkflowMigrationError migration_failed in
     failure = e /\
     getWorkflowFromStringifiedWorkflowOrGraph data (atom_templates w) = inl e /\
     returned (loadWorkflow data w) = inr None /\
     emitted w (loadWorkflow data w)
     = [LogError (JsObject [("error", serializeError e)]) migration_failed;
        Toasted (unable_to_validate_toast migration_failed)]) /\
  (error_kind (WorkflowVersionError version_not_recognized) = WorkflowVersionErrorKind /\
   error_kind (WorkflowMigrationError migration_failed) = WorkflowMigrationErrorKind /\
   WorkflowVersionErrorKind <> WorkflowMigrationErrorKind /\
   WorkflowVersionErrorKind <> SchemaValidationError /\
   WorkflowVersionErrorKind <> UnknownError /\
   WorkflowMigrationErrorKind <> SchemaValidationError /\
   WorkflowMigrationErrorKind <> UnknownError /\
   version_not_recognized <> migration_failed).
Proof.
  intros Hvalidator Hdoc Hversion.
  assert (Hroute : getWorkflowFromStringifiedWorkflowOrGraph data (atom_templates w)
                   = validateWorkflow_spec chain validate_current
                       (validation_args doc (atom_templates w))).
  { by rewrite getWorkflow_factors, Hdoc, Hvalidator. }
  unfold validateWorkflow_spec in Hroute. simpl in Hroute. rewrite Hversion in Hroute.
  split; [|split].
  - intros Hunknown e.
    assert (Hget : getWorkflowFromStringifiedWorkflowOrGraph data (atom_templates w) = inl e).
    { rewrite Hroute.
      destruct (existsb (String.eqb start) (recognized chain)) eqn:Hexists; [|done].
      by apply recognized_existsb in Hexists. }
    by failed_run Hget.
  - intros Hknown failure Hmigrate e.
    assert (Hfailure : failure = e) by (by apply migrate_failure in Hmigrate).
    assert (Hget : getWorkflowFromStringifiedWorkflowOrGraph data (atom_templates w) = inl e).
    { rewrite Hroute. apply recognized_existsb in Hknown. rewrite Hknown.
      rewrite Hmigrate, Hfailure. reflexivity. }
    by failed_run Hget.
  - repeat split; discriminate.
Qed.

(** C9, amended.  When parsing, conversion or validation throws, the atoms
    are as they were before the call: the execution states are not reset
    and the fit flag is not touched.  Nothing was dispatched; [null] is
    returned, and the calls made are one error log line followed by one
    error toast, and nothing else. *)
Theorem failure_leaves_the_stores_alone
    (data : GraphAndWorkflowResponse) (w : World) (e : JsThrown) :
  getWorkflowFromStringifiedWorkflowOrGraph data (atom_templates w) = inl e ->
  returned (loadWorkflow data w) = inr None /\
  atom_nodeExecutionStates (world_after (loadWorkflow data w)) = atom_nodeExecutionStates w /\
  atom_needsFit (world_after (loadWorkflow data w)) = atom_needsFit w /\
  atom_templates (world_after (loadWorkflow data w)) = atom_templates w /\
  dispatches (emitted w (loadWorkflow data w)) = [] /\
  resets (emitted w (loadWorkflow data w)) = [] /\
  fit_flags (emitted w (loadWorkflow data w)) = [] /\
  exists context message shown,
    emitted w (loadWorkflow data w) = [LogError context message; Toasted shown] /\
    toast_status shown = StatusError.
Proof.
  intros Hget. failed_run Hget. repeat split. by eexists _, _, _.
Qed.

(** C10.  The workflow a successful load returns is the workflow that
    validation produced and the one that was dispatched, unchanged; the
    reset of the execution states is the first call of the load and the
    dispatch follows it. *)
Theorem returned_workflow_is_the_published_one
    (data : GraphAndWorkflowResponse) (w : World) (workflow : WorkflowV3) :
  returned (loadWorkflow data w) = inr (Some workflow) ->
  (exists r, getWorkflowFromStringifiedWorkflowOrGraph data (atom_templates w) = inr r /\
             vr_workflow r = workflow) /\
  dispatches (emitted w (loadWorkflow data w)) = [workflowLoaded workflow] /\
  exists later,
    emitted w (loadWorkflow data w)
    = NodeExecutionStatesSet ∅ :: Dispatched (workflowLoaded workflow) :: later.
Proof.
  intros Hreturned.
  destruct (returned_workflow _ _ _ Hreturned) as (r & Hget & <- & Hreturns).
  split; [by exists r|].
  successful_run Hget Hreturns. split.
  - unfold success_events, dispatches. rewrite !omap_app, omap_map_none; done.
  - unfold success_events. simpl. by eexists.
Qed.

End Claims.

(** * The properties on the sample environment *)

Section OnTheSampleEnvironment.
Import Sample Inputs.

#[local] Existing Instance Sample.env.

(** The sample reader on a few texts. *)
Example parse_rejects_the_empty_text :
  parse "" = inl "Unexpected token or end of JSON input".
Proof. reflexivity. Qed.

Example parse_reads_nested_values :
  parse " [1, -20, [true, null], {}] "
  = inr (JsArray [JsNumber 1; JsNumber (-20); JsArray [JsBool true; JsNull]; JsObject []]).
Proof. vm_compute. reflexivity. Qed.

Example parse_rejects_trailing_text :
  parse "[] []" = inl "Unexpected non-whitespace character after JSON".
Proof. vm_compute. reflexivity. Qed.

Example parse_reads_the_graph_text :
  parse noop_graph_text
  = inr (JsObject
           [("nodes", JsArray [JsObject [("id", JsString "a"); ("type", JsString "noop")]]);
            ("edges", JsArray [])]).
Proof. vm_compute. reflexivity. Qed.

(** A version one step behind the latest is migrated and loads. *)
Example older_version_is_migrated :
  returned (loadWorkflow (workflow_of_version "2.0.0") w0)
  = inr (Some (JsObject [("nodes", JsArray []);
                         ("edges", JsArray []);
                         ("version", JsString "3.0.0")])).
Proof. vm_compute. reflexivity. Qed.

(** The theorem of C1 at the input with both fields [null], on which the
    helper throws. *)
Lemma loadWorkflow_catches_every_error_witness :
  getWorkflowFromStringifiedWorkflowOrGraph nothing (atom_templates w0)
  = inl (Error "No workflow or graph provided") /\
  returned (loadWorkflow nothing w0) = inr None /\
  toasts (emitted w0 (loadWorkflow nothing w0))
  = [unable_to_validate_toast (error_description (Error "No workflow or graph provided"))].
Proof.
  assert (Hget : getWorkflowFromStringifiedWorkflowOrGraph nothing (atom_templates w0)
                 = inl (Error "No workflow or graph provided"))
    by (vm_compute; reflexivity).
  exact (conj Hget (proj2 (loadWorkflow_catches_every_error nothing w0) _ Hget)).
Defined.

(** The theorem of C2: a non-empty workflow wins over the graph beside it;
    a graph alone is converted with layout. *)
Lemma route_by_truthiness_witness :
  getWorkflowFromStringifiedWorkflowOrGraph workflow_and_broken_graph (atom_templates w0)
  = workflow_route (empty_workflow_text "3.0.0") (atom_templates w0) /\
  getWorkflowFromStringifiedWorkflowOrGraph graph_only (atom_templates w0)
  = graph_route noop_graph_text true (atom_templates w0).
Proof.
  split.
  - apply (proj1 (route_by_truthiness workflow_and_broken_graph (atom_templates w0))).
    + reflexivity.
    + vm_compute. discriminate.
  - apply (proj2 (route_by_truthiness graph_only (atom_templates w0))).
    + left. reflexivity.
    + reflexivity.
    + vm_compute. discriminate.
Defined.

(** C2 as stated fails: the workflow field is present and holds the empty
    string, yet it is not parsed (parsing it would throw); the graph
    beside it is loaded instead. *)
Lemma present_empty_workflow_is_skipped :
  data_workflow empty_workflow_and_graph = Some "" /\
  workflow_route "" (atom_templates w0)
  = inl (SyntaxError "Unexpected token or end of JSON input") /\
  getWorkflowFromStringifiedWorkflowOrGraph empty_workflow_and_graph (atom_templates w0)
  <> workflow_route "" (atom_templates w0) /\
  getWorkflowFromStringifiedWorkflowOrGraph empty_workflow_and_graph (atom_templates w0)
  = graph_route noop_graph_text true (atom_templates w0) /\
  returned (loadWorkflow empty_workflow_and_graph w0)
  = inr (Some (JsObject
                 [("version", JsString "3.0.0");
                  ("nodes",
                   JsArray [JsObject [("id", JsString "a"); ("type", JsString "noop");
                                      ("position",
                                       JsObject [("x", JsNumber 0); ("y", JsNumber 0)])]]);
                  ("edges", JsArray [])])).
Proof.
  split; [reflexivity|]. split; [vm_compute; reflexivity|].
  split; [vm_compute; discriminate|]. split; vm_compute; reflexivity.
Qed.

(** The theorem of C3 at the input with both fields [null]. *)
Lemma missing_input_is_reported_as_unknown_witness :
  truthy (data_workflow nothing) = None /\
  truthy (data_graph nothing) = None /\
  getWorkflowFromStringifiedWorkflowOrGraph nothing (atom_templates w0)
  = inl (Error "No workflow or graph provided") /\
  error_kind (Error "No workflow or graph provided") = UnknownError /\
  returned (loadWorkflow nothing w0) = inr None /\
  emitted w0 (loadWorkflow nothing w0)
  = [LogError (JsObject [("error", serializeError (Error "No workflow or graph provided"))])
              (t "nodes.unknownErrorValidatingWorkflow");
     Toasted (unable_to_validate_toast (t "nodes.unknownErrorValidatingWorkflow"))].
Proof.
  exact (conj eq_refl (conj eq_refl
           (missing_input_is_reported_as_unknown nothing w0 eq_refl eq_refl))).
Defined.

(** C3 as stated fails: the error thrown for a missing input is a plain
    [Error], which the catch clause handles under the unknown kind.  Its
    toast and its log message are those of an unrelated unknown error, here
    the [SyntaxError] of a workflow text that is not JSON. *)
Lemma missing_input_has_no_kind_of_its_own :
  data_workflow nothing = None /\
  data_graph nothing = None /\
  getWorkflowFromStringifiedWorkflowOrGraph nothing (atom_templates w0)
  = inl (Error "No workflow or graph provided") /\
  error_kind (Error "No workflow or graph provided") = UnknownError /\
  error_kind (Error "No workflow or graph provided") <> MissingInputError /\
  getWorkflowFromStringifiedWorkflowOrGraph broken_workflow (atom_templates w0)
  = inl (SyntaxError "Unexpected token or end of JSON input") /\
  toasts (emitted w0 (loadWorkflow nothing w0))
  = toasts (emitted w0 (loadWorkflow broken_workflow w0)) /\
  map snd (error_logs (emitted w0 (loadWorkflow nothing w0)))
  = map snd (error_logs (emitted w0 (loadWorkflow broken_workflow w0))) /\
  toasts (emitted w0 (loadWorkflow nothing w0))
  = [{| toast_id := "UNABLE_TO_VALIDATE_WORKFLOW";
        toast_title := "Unable to Validate Workflow";
        toast_status := StatusError;
        toast_description := Some "Unknown error validating workflow" |}].
Proof.
  split; [reflexivity|]. split; [reflexivity|].
  split; [vm_compute; reflexivity|]. split; [reflexivity|]. split; [discriminate|].
  repeat split; vm_compute; reflexivity.
Qed.

(** The theorem of C4 at a workflow text that is not JSON. *)
Lemma unparseable_text_is_reported_as_unknown_witness :
  truthy (data_workflow broken_workflow) = Some "not json" /\
  JSON_parse "not json" = inl "Unexpected token or end of JSON input" /\
  getWorkflowFromStringifiedWorkflowOrGraph broken_workflow (atom_templates w0)
  = inl (SyntaxError "Unexpected token or end of JSON input") /\
  error_kind (SyntaxError "Unexpected token or end of JSON input") = UnknownError /\
  returned (loadWorkflow broken_workflow w0) = inr None /\
  emitted w0 (loadWorkflow broken_workflow w0)
  = [LogError (JsObject [("error",
                          serializeError
                            (SyntaxError "Unexpected token or end of JSON input"))])
              (t "nodes.unknownErrorValidatingWorkflow");
     Toasted (unable_to_validate_toast (t "nodes.unknownErrorValidatingWorkflow"))].
Proof.
  assert (Hparse : JSON_parse "not json" = inl "Unexpected token or end of JSON input")
    by (vm_compute; reflexivity).
  exact (conj eq_refl (conj Hparse
           (unparseable_text_is_reported_as_unknown broken_workflow w0 "not json" _
              (or_introl eq_refl) Hparse))).
Defined.

(** C4 as stated fails twice.  A graph that is not JSON does not make the
    load fail when a workflow stands beside it: the workflow is loaded.
    And when the text that is parsed is not JSON, the [SyntaxError] is
    handled under the unknown kind, with the toast of an unrelated unknown
    error, here the plain [Error] of the missing input. *)
Lemma broken_graph_beside_a_workflow_is_ignored :
  data_graph workflow_and_broken_graph = Some "not json" /\
  JSON_parse "not json" = inl "Unexpected token or end of JSON input" /\
  returned (loadWorkflow workflow_and_broken_graph w0)
  = inr (Some (JsObject [("version", JsString "3.0.0");
                         ("nodes", JsArray []);
                         ("edges", JsArray [])])) /\
  toasts (emitted w0 (loadWorkflow workflow_and_broken_graph w0)) = [loaded_toast] /\
  getWorkflowFromStringifiedWorkflowOrGraph broken_workflow (atom_templates w0)
  = inl (SyntaxError "Unexpected token or end of JSON input") /\
  error_kind (SyntaxError "Unexpected token or end of JSON input") = UnknownError /\
  error_kind (SyntaxError "Unexpected token or end of JSON input") <> MalformedInputError /\
  toasts (emitted w0 (loadWorkflow broken_workflow w0))
  = toasts (emitted w0 (loadWorkflow nothing w0)) /\
  map snd (error_logs (emitted w0 (loadWorkflow broken_workflow w0)))
  = map snd (error_logs (emitted w0 (loadWorkflow nothing w0))).
Proof.
  split; [reflexivity|]. split; [vm_compute; reflexivity|].
  split; [vm_compute; reflexivity|]. split; [vm_compute; reflexivity|].
  split; [vm_compute; reflexivity|]. split; [reflexivity|]. split; [discriminate|].
  split; vm_compute; reflexivity.
Qed.

(** The theorem of C5 at a document without [nodes], which fails the schema
    rule. *)
Lemma description_by_error_class_witness :
  let e := ZodError [{| issue_code := "invalid_type";
                        issue_path := ["nodes"];
                        issue_message := "Required" |}] in
  getWorkflowFromStringifiedWorkflowOrGraph workflow_without_nodes (atom_templates w0) = inl e /\
  exists description,
    toasts (emitted w0 (loadWorkflow workflow_without_nodes w0))
    = [unable_to_validate_toast description] /\
    (forall message, e = WorkflowVersionError message -> description = message) /\
    (forall message, e = WorkflowMigrationError message -> description = message) /\
    (forall issues, e = ZodError issues ->
       description = fromZodError issues (t "nodes.workflowValidation")) /\
    ((forall message, e <> WorkflowVersionError message) ->
     (forall message, e <> WorkflowMigrationError message) ->
     (forall issues, e <> ZodError issues) ->
     description = t "nodes.unknownErrorValidatingWorkflow").
Proof.
  assert (Hget : getWorkflowFromStringifiedWorkflowOrGraph workflow_without_nodes
                   (atom_templates w0)
                 = inl (ZodError [{| issue_code := "invalid_type";
                                     issue_path := ["nodes"];
                                     issue_message := "Required" |}]))
    by (vm_compute; reflexivity).
  exact (conj Hget (description_by_error_class workflow_without_nodes w0 _ Hget)).
Defined.

(** The theorem of C6 at a workflow with two nodes whose image is refused:
    two warning lines, one toast. *)
Lemma one_success_toast_witness :
  let r := {| vr_workflow :=
                JsObject
                  [("version", JsString "3.0.0");
                   ("nodes",
                    JsArray [JsObject [("id", JsString "a"); ("image", JsString "private.png")];
                             JsObject [("id", JsString "b"); ("image", JsString "private.png")]]);
                   ("edges", JsArray [])];
              vr_warnings :=
                [{| warning_message := "Image not accessible";
                    warning_rest := JsObject [("image", JsString "private.png")] |};
                 {| warning_message := "Image not accessible";
                    warning_rest := JsObject [("image", JsString "private.png")] |}] |} in
  getWorkflowFromStringifiedWorkflowOrGraph workflow_with_private_images (atom_templates w0)
  = inr r /\
  returned (loadWorkflow workflow_with_private_images w0) = inr (Some (vr_workflow r)) /\
  toasts (emitted w0 (loadWorkflow workflow_with_private_images w0))
  = [loaded_with_warnings_toast] /\
  loaded_toast <> loaded_with_warnings_toast /\
  warn_logs (emitted w0 (loadWorkflow workflow_with_private_images w0))
  = map warning_line (vr_warnings r) /\
  length (warn_logs (emitted w0 (loadWorkflow workflow_with_private_images w0))) = 2 /\
  length (toasts (emitted w0 (loadWorkflow workflow_with_private_images w0))) = 1.
Proof.
  intros r.
  assert (Hget : getWorkflowFromStringifiedWorkflowOrGraph workflow_with_private_images
                   (atom_templates w0) = inr r)
    by (vm_compute; reflexivity).
  assert (Hreturned : returned (loadWorkflow workflow_with_private_images w0)
                      = inr (Some (vr_workflow r)))
    by (vm_compute; reflexivity).
  exact (conj Hget (conj Hreturned
           (one_success_toast workflow_with_private_images w0 r Hget Hreturned))).
Defined.

(** The theorem of C7 in a world that holds execution states of an earlier
    run and has the fit flag down. *)
Lemma success_side_effects_witness :
  let r := {| vr_workflow := JsObject [("version", JsString "3.0.0");
                                       ("nodes", JsArray []);
                                       ("edges", JsArray [])];
              vr_warnings := [] |} in
  atom_nodeExecutionStates w0 <> ∅ /\
  atom_needsFit w0 = false /\
  getWorkflowFromStringifiedWorkflowOrGraph current_workflow (atom_templates w0) = inr r /\
  returned (loadWorkflow current_workflow w0) = inr (Some (vr_workflow r)) /\
  dispatches (emitted w0 (loadWorkflow current_workflow w0)) = [workflowLoaded (vr_workflow r)] /\
  resets (emitted w0 (loadWorkflow current_workflow w0)) = [∅] /\
  atom_nodeExecutionStates (world_after (loadWorkflow current_workflow w0)) = ∅ /\
  fit_flags (emitted w0 (loadWorkflow current_workflow w0)) = [true] /\
  atom_needsFit (world_after (loadWorkflow current_workflow w0)) = true.
Proof.
  intros r.
  assert (Hget : getWorkflowFromStringifiedWorkflowOrGraph current_workflow (atom_templates w0)
                 = inr r)
    by (vm_compute; reflexivity).
  split; [vm_compute; discriminate|]. split; [reflexivity|].
  assert (Hreturned : returned (loadWorkflow current_workflow w0)
                      = inr (Some (vr_workflow r)))
    by (vm_compute; reflexivity).
  exact (conj Hget (conj Hreturned
           (success_side_effects current_workflow w0 r Hget Hreturned))).
Defined.

(** The theorem of C8: version ["9.9.9"] is not recognized; version
    ["1.0.0"] is recognized and no step is registered for it. *)
Lemma version_and_migration_errors_witness :
  (let e := WorkflowVersionError version_not_recognized in
   ("9.9.9" ∉ recognized chain) /\
   getWorkflowFromStringifiedWorkflowOrGraph (workflow_of_version "9.9.9") (atom_templates w0)
   = inl e /\
   returned (loadWorkflow (workflow_of_version "9.9.9") w0) = inr None /\
   emitted w0 (loadWorkflow (workflow_of_version "9.9.9") w0)
   = [LogError (JsObject [("error", serializeError e)]) version_not_recognized;
      Toasted (unable_to_validate_toast version_not_recognized)]) /\
  (let e := WorkflowMigrationError migration_failed in
   ("1.0.0" ∈ recognized chain) /\
   getWorkflowFromStringifiedWorkflowOrGraph (workflow_of_version "1.0.0") (atom_templates w0)
   = inl e /\
   returned (loadWorkflow (workflow_of_version "1.0.0") w0) = inr None /\
   emitted w0 (loadWorkflow (workflow_of_version "1.0.0") w0)
   = [LogError (JsObject [("error", serializeError e)]) migration_failed;
      Toasted (unable_to_validate_toast migration_failed)]).
Proof.
  assert (Hspec : forall args,
             validateWorkflow args = validateWorkflow_spec chain validate_current args)
    by (intros args; reflexivity).
  assert (Hunknown : "9.9.9" ∉ recognized chain).
  { intros Hin. apply recognized_existsb in Hin. vm_compute in Hin. discriminate Hin. }
  assert (Hknown : "1.0.0" ∈ recognized chain).
  { apply recognized_existsb. vm_compute. reflexivity. }
  split.
  - split; [exact Hunknown|].
    refine (proj1 (version_and_migration_errors chain validate_current
                     (workflow_of_version "9.9.9") w0 _ "9.9.9" Hspec _ _) Hunknown).
    + vm_compute. reflexivity.
    + vm_compute. reflexivity.
  - split; [exact Hknown|].
    refine (proj2 (proj1 (proj2 (version_and_migration_errors chain validate_current
                     (workflow_of_version "1.0.0") w0 _ "1.0.0" Hspec _ _)) Hknown _ _)).
    + vm_compute. reflexivity.
    + vm_compute. reflexivity.
    + vm_compute. reflexivity.
Defined.

(** The theorem of C9 at the input with both fields [null]: the execution
    states of the earlier run are still there. *)
Lemma failure_leaves_the_stores_alone_witness :
  getWorkflowFromStringifiedWorkflowOrGraph nothing (atom_templates w0)
  = inl (Error "No workflow or graph provided") /\
  returned (loadWorkflow nothing w0) = inr None /\
  atom_nodeExecutionStates (world_after (loadWorkflow nothing w0))
  = {["a" := JsString "COMPLETED"]} /\
  atom_needsFit (world_after (loadWorkflow nothing w0)) = false /\
  atom_templates (world_after (loadWorkflow nothing w0)) = atom_templates w0 /\
  dispatches (emitted w0 (loadWorkflow nothing w0)) = [] /\
  resets (emitted w0 (loadWorkflow nothing w0)) = [] /\
  fit_flags (emitted w0 (loadWorkflow nothing w0)) = [] /\
  exists context message shown,
    emitted w0 (loadWorkflow nothing w0) = [LogError context message; Toasted shown] /\
    toast_status shown = StatusError.
Proof.
  assert (Hget : getWorkflowFromStringifiedWorkflowOrGraph nothing (atom_templates w0)
                 = inl (Error "No workflow or graph provided"))
    by (vm_compute; reflexivity).
  exact (conj Hget (failure_leaves_the_stores_alone nothing w0 _ Hget)).
Defined.

(** C9 as stated fails: the reset, the dispatch, the toast, the warning
    lines and the fit flag are inside the [try] block.  With a store whose
    dispatch throws, a valid workflow makes the load return [null] after
    the execution states have been reset: the reset is among the calls, the
    atom is empty, and the catch clause reports the store's error. *)
Lemma throwing_dispatch_keeps_the_reset :
  getWorkflowFromStringifiedWorkflowOrGraph (env := Faults.env_dispatch)
    current_workflow (atom_templates w0)
  = inr {| vr_workflow := JsObject [("version", JsString "3.0.0");
                                    ("nodes", JsArray []);
                                    ("edges", JsArray [])];
           vr_warnings := [] |} /\
  returned (loadWorkflow (env := Faults.env_dispatch) current_workflow w0) = inr None /\
  atom_nodeExecutionStates w0 = {["a" := JsString "COMPLETED"]} /\
  atom_nodeExecutionStates
    (world_after (loadWorkflow (env := Faults.env_dispatch) current_workflow w0))
  = ∅ /\
  atom_nodeExecutionStates
    (world_after (loadWorkflow (env := Faults.env_dispatch) current_workflow w0))
  <> atom_nodeExecutionStates w0 /\
  emitted w0 (loadWorkflow (env := Faults.env_dispatch) current_workflow w0)
  = [NodeExecutionStatesSet ∅;
     LogError (JsObject [("error", JsObject [("name", JsString "Error");
                                             ("message", JsString "reducer failed")])])
              "Unknown error validating workflow";
     Toasted {| toast_id := "UNABLE_TO_VALIDATE_WORKFLOW";
                toast_title := "Unable to Validate Workflow";
                toast_status := StatusError;
                toast_description := Some "Unknown error validating workflow" |}].
Proof.
  split; [vm_compute; reflexivity|]. split; [vm_compute; reflexivity|].
  split; [reflexivity|]. split; [vm_compute; reflexivity|].
  split; [vm_compute; discriminate|]. vm_compute; reflexivity.
Qed.

(** The theorem of C10 at the graph of one [noop] node. *)
Lemma returned_workflow_is_the_published_one_witness :
  let workflow :=
    JsObject
      [("version", JsString "3.0.0");
       ("nodes",
        JsArray [JsObject [("id", JsString "a"); ("type", JsString "noop");
                           ("position", JsObject [("x", JsNumber 0); ("y", JsNumber 0)])]]);
       ("edges", JsArray [])] in
  returned (loadWorkflow graph_only w0) = inr (Some workflow) /\
  (exists r, getWorkflowFromStringifiedWorkflowOrGraph graph_only (atom_templates w0) = inr r /\
             vr_workflow r = workflow) /\
  dispatches (emitted w0 (loadWorkflow graph_only w0)) = [workflowLoaded workflow] /\
  exists later,
    emitted w0 (loadWorkflow graph_only w0)
    = NodeExecutionStatesSet ∅ :: Dispatched (workflowLoaded workflow) :: later.
Proof.
  intros workflow.
  assert (Hreturned : returned (loadWorkflow graph_only w0) = inr (Some workflow))
    by (vm_compute; reflexivity).
  exact (conj Hreturned (returned_workflow_is_the_published_one graph_only w0 workflow Hreturned)).
Defined.

End OnTheSampleEnvironment.

(** * Further properties of the loader *)

Section LoaderFrame.
Context `{env : Collaborators}.

(** The calls of a run whose helper resolves. *)
Lemma emitted_resolved (data : GraphAndWorkflowResponse) (w : World) (r : ValidationResult) :
  getWorkflowFromStringifiedWorkflowOrGraph data (atom_templates w) = inr r ->
  emitted w (loadWorkflow data w)
  = fst (perform (success_events r))
    ++ match snd (perform (success_events r)) with
       | Some e => failure_events e
       | None => []
       end.
Proof.
  intros Hget. rewrite (loadWorkflow_resolved _ _ _ Hget). cbn zeta.
  destruct (snd (perform (success_events r))); apply emitted_app;
    unfold emit, world_of_try; simpl; by rewrite <- ?app_assoc, ?app_nil_r.
Qed.

(** A run never writes the templates atom. *)
Lemma templates_after_run (data : GraphAndWorkflowResponse) (w : World) :
  atom_templates (world_after (loadWorkflow data w)) = atom_templates w.
Proof.
  destruct (getWorkflowFromStringifiedWorkflowOrGraph data (atom_templates w))
    as [e|r] eqn:Hget.
  - by rewrite (loadWorkflow_failure _ _ _ Hget).
  - rewrite (loadWorkflow_resolved _ _ _ Hget). cbn zeta.
    by destruct (snd (perform (success_events r))).
Qed.

(** Of the world a run starts in, only the templates decide what it returns
    and which calls it makes. *)
Lemma run_by_templates (data : GraphAndWorkflowResponse) (w w' : World) :
  atom_templates w = atom_templates w' ->
  returned (loadWorkflow data w) = returned (loadWorkflow data w') /\
  emitted w (loadWorkflow data w) = emitted w' (loadWorkflow data w').
Proof.
  intros Htemplates.
  destruct (getWorkflowFromStringifiedWorkflowOrGraph data (atom_templates w))
    as [e|r] eqn:Hget.
  - assert (Hget' := Hget). rewrite Htemplates in Hget'.
    rewrite (emitted_failure _ _ _ Hget), (emitted_failure _ _ _ Hget').
    by rewrite (loadWorkflow_failure _ _ _ Hget), (loadWorkflow_failure _ _ _ Hget').
  - assert (Hget' := Hget). rewrite Htemplates in Hget'.
    rewrite (emitted_resolved _ _ _ Hget), (emitted_resolved _ _ _ Hget').
    rewrite (loadWorkflow_resolved _ _ _ Hget), (loadWorkflow_resolved _ _ _ Hget').
    cbn zeta. by destruct (snd (perform (success_events r))).
Qed.


(** The text the helper parses decides its result. *)
Lemma helper_by_selected_text (data data' : GraphAndWorkflowResponse) (templates : Templates) :
  truthy (data_workflow data) = truthy (data_workflow data') ->
  (truthy (data_workflow data) = None ->
   truthy (data_graph data) = truthy (data_graph data')) ->
  getWorkflowFromStringifiedWorkflowOrGraph data templates
  = getWorkflowFromStringifiedWorkflowOrGraph data' templates.
Proof.
  intros Hworkflow Hgraph. unfold getWorkflowFromStringifiedWorkflowOrGraph.
  rewrite <- Hworkflow.
  destruct (truthy (data_workflow data)) as [text|]; [reflexivity|].
  by rewrite <- Hgraph.
Qed.


(** X2.  Two runs on the same input in worlds that hold the same templates
    return the same and make the same calls, whatever the other atoms and
    the earlier calls are. *)
Theorem run_reads_only_the_templates (data : GraphAndWorkflowResponse) (w w' : World) :
  atom_templates w = atom_templates w' ->
  returned (loadWorkflow data w) = returned (loadWorkflow data w') /\
  emitted w (loadWorkflow data w) = emitted w' (loadWorkflow data w') /\
  (forall workflow,
     returned (loadWorkflow data w) = inr (Some workflow) ->
     atom_nodeExecutionStates (world_after (loadWorkflow data w))
     = atom_nodeExecutionStates (world_after (loadWorkflow data w')) /\
     atom_needsFit (world_after (loadWorkflow data w))
     = atom_needsFit (world_after (loadWorkflow data w'))).
Proof.
  intros Htemplates. destruct (run_by_templates data w w' Htemplates) as [Hreturned Hemitted].
  split; [done|]. split; [done|].
  intros workflow Hworkflow.
  destruct (returned_workflow _ _ _ Hworkflow) as (r & Hget & _ & Hreturns).
  assert (Hget' := Hget). rewrite Htemplates in Hget'.
  by rewrite (loadWorkflow_success _ _ _ Hget Hreturns),
             (loadWorkflow_success _ _ _ Hget' Hreturns).
Qed.

(** X3.  Loading the same input a second time, in the world the first load
    left, returns what the first load returned and repeats its calls; the
    three atoms are after the second load as they were after the first. *)
Theorem second_load_repeats_the_first (data : GraphAndWorkflowResponse) (w : World) :
  let first := loadWorkflow data w in
  let second := loadWorkflow data (world_after first) in
  returned second = returned first /\
  emitted (world_after first) second = emitted w first /\
  atom_templates (world_after second) = atom_templates (world_after first) /\
  atom_nodeExecutionStates (world_after second)
  = atom_nodeExecutionStates (world_after first) /\
  atom_needsFit (world_after second) = atom_needsFit (world_after first).
Proof.
  intros first second.
  assert (Htemplates : atom_templates (world_after first) = atom_templates w)
    by apply templates_after_run.
  destruct (run_by_templates data (world_after first) w Htemplates) as [Hreturned Hemitted].
  split; [done|]. split; [done|]. split; [apply templates_after_run|].
  unfold second, first in *.
  destruct (getWorkflowFromStringifiedWorkflowOrGraph data (atom_templates w))
    as [e|r] eqn:Hget.
  - assert (Hget' := Hget). rewrite <- Htemplates in Hget'.
    by rewrite (loadWorkflow_failure _ _ _ Hget').
  - assert (Hget' := Hget). rewrite <- Htemplates in Hget'.
    rewrite (loadWorkflow_resolved _ _ _ Hget'), (loadWorkflow_resolved _ _ _ Hget).
    cbn zeta.
    by destruct (snd (perform (success_events r))), (fst (perform (success_events r))).
Qed.

(** X4.  When [null] is returned, the last two calls of the run are the
    error line and the error toast; the message of the line is the
    description of the toast, and the context of the line is the serialized
    thrown value under the key [error].  When it is the helper that threw,
    the value is the helper's and these two calls are the only ones. *)
Theorem error_line_carries_the_toast_description
    (data : GraphAndWorkflowResponse) (w : World) :
  returned (loadWorkflow data w) = inr None ->
  exists before e message shown,
    emitted w (loadWorkflow data w)
    = before ++ [LogError (JsObject [("error", serializeError e)]) message; Toasted shown] /\
    toast_description shown = Some message /\
    toast_status shown = StatusError /\
    (forall thrown,
       getWorkflowFromStringifiedWorkflowOrGraph data (atom_templates w) = inl thrown ->
       thrown = e /\ before = []).
Proof.
  intros Hnull.
  destruct (getWorkflowFromStringifiedWorkflowOrGraph data (atom_templates w))
    as [e|r] eqn:Hget.
  - exists [], e, (error_description e), (unable_to_validate_toast (error_description e)).
    rewrite (emitted_failure _ _ _ Hget).
    refine (conj _ (conj _ (conj _ _))); try done. by intros thrown [= ->].
  - rewrite (emitted_resolved _ _ _ Hget).
    rewrite (loadWorkflow_resolved _ _ _ Hget) in Hnull. cbn zeta in Hnull.
    destruct (snd (perform (success_events r))) as [e|]; [|discriminate].
    exists (fst (perform (success_events r))), e, (error_description e),
           (unable_to_validate_toast (error_description e)).
    refine (conj _ (conj _ (conj _ _))); done.
Qed.

(** X5.  A run depends on the input only through the text it selects: two
    inputs whose workflow fields are truthy alike, and whose graph fields
    are truthy alike when the workflow is not, load identically.  So an
    empty string loads as [null] does, and the graph beside a non-empty
    workflow does not matter. *)
Theorem same_selected_text_same_run (data data' : GraphAndWorkflowResponse) (w : World) :
  truthy (data_workflow data) = truthy (data_workflow data') ->
  (truthy (data_workflow data) = None ->
   truthy (data_graph data) = truthy (data_graph data')) ->
  loadWorkflow data w = loadWorkflow data' w.
Proof.
  intros Hworkflow Hgraph.
  pose proof (helper_by_selected_text data data' (atom_templates w) Hworkflow Hgraph)
    as Hhelper.
  destruct (getWorkflowFromStringifiedWorkflowOrGraph data (atom_templates w))
    as [e|r] eqn:Hget.
  - symmetry in Hhelper.
    by rewrite (loadWorkflow_failure _ _ _ Hget), (loadWorkflow_failure _ _ _ Hhelper).
  - symmetry in Hhelper.
    by rewrite (loadWorkflow_resolved _ _ _ Hget), (loadWorkflow_resolved _ _ _ Hhelper).
Qed.

(** X6.  The calls of a successful load, one that returns the workflow that
    validation produced, in order: the reset of the execution states, the
    dispatch, the toast, one warning line for each warning in the order of
    the warnings, and last the fit flag.  There are four calls and one more
    for each warning. *)
Theorem calls_of_a_successful_load
    (data : GraphAndWorkflowResponse) (w : World) (r : ValidationResult) :
  getWorkflowFromStringifiedWorkflowOrGraph data (atom_templates w) = inr r ->
  returned (loadWorkflow data w) = inr (Some (vr_workflow r)) ->
  emitted w (loadWorkflow data w)
  = [NodeExecutionStatesSet ∅;
     Dispatched (workflowLoaded (vr_workflow r));
     Toasted (if Nat.eqb (length (vr_warnings r)) 0
              then loaded_toast else loaded_with_warnings_toast)]
    ++ map (fun warning => LogWarn (warning_rest warning) (warning_message warning))
           (vr_warnings r)
    ++ [NeedsFitSet true] /\
  last (emitted w (loadWorkflow data w)) = Some (NeedsFitSet true) /\
  length (emitted w (loadWorkflow data w)) = 4 + length (vr_warnings r).
Proof.
  intros Hget Hreturned.
  rewrite (emitted_success _ _ _ Hget (calls_returned _ _ _ Hget Hreturned)).
  unfold success_events.
  split; [by destruct (vr_warnings r)|]. split.
  - rewrite !app_assoc. apply last_snoc.
  - rewrite !length_app, length_map. simpl. lia.
Qed.

(** X7.  The helper throws for one of four causes and for no other: no
    field holds a non-empty string (a plain [Error]); the selected text is
    not JSON (the parser's [SyntaxError]); the converter throws on the
    parsed graph (its error, unchanged); the validator throws on the
    document it is given (its error, unchanged). *)
Theorem causes_of_failure
    (data : GraphAndWorkflowResponse) (templates : Templates) (e : JsThrown) :
  getWorkflowFromStringifiedWorkflowOrGraph data templates = inl e <->
  (truthy (data_workflow data) = None /\ truthy (data_graph data) = None /\
   e = Error "No workflow or graph provided")
  \/ (exists text message,
        (truthy (data_workflow data) = Some text
         \/ (truthy (data_workflow data) = None /\ truthy (data_graph data) = Some text)) /\
        JSON_parse text = inl message /\ e = SyntaxError message)
  \/ (exists text parsed,
        truthy (data_workflow data) = None /\ truthy (data_graph data) = Some text /\
        JSON_parse text = inr parsed /\ graphToWorkflow parsed true = inl e)
  \/ (exists doc,
        document_to_validate data = inr doc /\
        validateWorkflow (validation_args doc templates) = inl e).
Proof.
  rewrite getWorkflow_factors.
  unfold document_to_validate, workflow_document, graph_document.
  destruct (truthy (data_workflow data)) as [workflow_text|].
  - destruct (JSON_parse workflow_text) as [message|parsed] eqn:Hparse.
    + split.
      * intros [= <-]. right. left. exists workflow_text, message. eauto.
      * intros [(Hnone & _) | [(text & message' & Hselected & Hparse' & ->)
                 | [(text & parsed & Hnone & _) | (doc & Hdoc & _)]]];
          try discriminate.
        destruct Hselected as [[= <-] | [Hnone _]]; [|discriminate].
        rewrite Hparse in Hparse'. by injection Hparse' as ->.
    + split.
      * intros Hvalidate. do 3 right. by exists parsed.
      * intros [(Hnone & _) | [(text & message' & Hselected & Hparse' & ->)
                 | [(text & parsed' & Hnone & _) | (doc & [= <-] & Hvalidate)]]];
          try discriminate; [|done].
        destruct Hselected as [[= <-] | [Hnone _]]; [|discriminate].
        rewrite Hparse in Hparse'. discriminate.
  - destruct (truthy (data_graph data)) as [graph_text|].
    + destruct (JSON_parse graph_text) as [message|parsed] eqn:Hparse.
      * split.
        -- intros [= <-]. right. left. exists graph_text, message. eauto.
        -- intros [(_ & Hnone & _) | [(text & message' & Hselected & Hparse' & ->)
                    | [(text & parsed & _ & [= <-] & Hparse' & _) | (doc & Hdoc & _)]]];
             try discriminate.
           ++ destruct Hselected as [Hsome | [_ [= <-]]]; [discriminate|].
              rewrite Hparse in Hparse'. by injection Hparse' as ->.
           ++ rewrite Hparse in Hparse'. discriminate.
      * destruct (graphToWorkflow parsed true) as [thrown|workflow] eqn:Hconvert.
        -- split.
           ++ intros [= <-]. right. right. left. exists graph_text, parsed. eauto.
           ++ intros [(_ & Hnone & _) | [(text & message' & Hselected & Hparse' & ->)
                       | [(text & parsed' & _ & [= <-] & Hparse' & Hconvert')
                          | (doc & Hdoc & _)]]];
                try discriminate.
              ** destruct Hselected as [Hsome | [_ [= <-]]]; [discriminate|].
                 rewrite Hparse in Hparse'. discriminate.
              ** rewrite Hparse in Hparse'. injection Hparse' as <-.
                 rewrite Hconvert in Hconvert'. by injection Hconvert' as ->.
        -- split.
           ++ intros Hvalidate. do 3 right. by exists workflow.
           ++ intros [(_ & Hnone & _) | [(text & message' & Hselected & Hparse' & ->)
                       | [(text & parsed' & _ & [= <-] & Hparse' & Hconvert')
                          | (doc & [= <-] & Hvalidate)]]];
                try discriminate; [| |done].
              ** destruct Hselected as [Hsome | [_ [= <-]]]; [discriminate|].
                 rewrite Hparse in Hparse'. discriminate.
              ** rewrite Hparse in Hparse'. injection Hparse' as <-.
                 rewrite Hconvert in Hconvert'. discriminate.
    + split.
      * intros [= <-]. by left.
      * intros [(_ & _ & ->) | [(text & message' & Hselected & _)
                 | [(text & parsed & _ & Hsome & _) | (doc & Hdoc & _)]]];
          try discriminate; [done|].
        destruct Hselected as [Hsome | [_ Hsome]]; discriminate.
Qed.


(** X9.  A run never writes the templates atom and never removes a call
    from the trace: the trace after the run is the trace before it followed
    by the calls of the run. *)
Theorem templates_are_never_written (data : GraphAndWorkflowResponse) (w : World) :
  atom_templates (world_after (loadWorkflow data w)) = atom_templates w /\
  trace (world_after (loadWorkflow data w)) = trace w ++ emitted w (loadWorkflow data w).
Proof.
  split; [apply templates_after_run|].
  destruct (getWorkflowFromStringifiedWorkflowOrGraph data (atom_templates w))
    as [e|r] eqn:Hget.
  - by rewrite (emitted_failure _ _ _ Hget), (loadWorkflow_failure _ _ _ Hget).
  - rewrite (emitted_resolved _ _ _ Hget), (loadWorkflow_resolved _ _ _ Hget). cbn zeta.
    destruct (snd (perform (success_events r))); unfold emit, world_of_try; simpl;
      by rewrite <- ?app_assoc, ?app_nil_r.
Qed.

End LoaderFrame.

(** * The change handler of the main-model field *)

(** X10.  Over a sequence of changes the handler dispatches one action for
    each change that carries a model and none for a [null] change; the
    actions follow the earlier ones in the order of the changes, each with
    the node id and the field name of the props and the model unchanged.
    So it never dispatches more actions than there are changes. *)
Theorem changes_dispatch_the_selected_models
    (props : CogView4.Props) (values : list (option JsValue))
    (dispatched : list CogView4.NodesAction) :
  CogView4.changes props values dispatched
  = dispatched
    ++ map (CogView4.fieldMainModelValueChanged
              (CogView4.nodeId props) (CogView4.name (CogView4.field props)))
           (omap (fun value => value) values) /\
  length (CogView4.changes props values dispatched)
  <= length dispatched + length values.
Proof.
  assert (Hchanges : forall store,
             CogView4.changes props values store
             = store
               ++ map (CogView4.fieldMainModelValueChanged
                         (CogView4.nodeId props) (CogView4.name (CogView4.field props)))
                      (omap (fun value => value) values)).
  { unfold CogView4.changes.
    induction values as [|[model|] rest IH]; intros store; simpl.
    - by rewrite app_nil_r.
    - rewrite IH. by rewrite <- app_assoc.
    - apply IH. }
  split; [apply Hchanges|].
  rewrite Hchanges, length_app, length_map.
  assert (Hmodels : length (omap (fun value => value) values) <= length values).
  { clear. induction values as [|[model|] rest IH]; simpl.
    - lia.
    - apply le_n_S, IH.
    - apply Nat.le_le_succ_r, IH. }
  lia.
Qed.

(** * The further properties on the sample environment *)

Section FurtherOnTheSampleEnvironment.
Import Sample Inputs MoreInputs.

#[local] Existing Instance Sample.env.

(** The theorem of X2 in two worlds that share only their templates. *)
Lemma run_reads_only_the_templates_witness :
  atom_templates w0 = atom_templates w1 /\
  atom_nodeExecutionStates w0 <> atom_nodeExecutionStates w1 /\
  trace w0 <> trace w1 /\
  returned (loadWorkflow workflow_with_private_images w0)
  = returned (loadWorkflow workflow_with_private_images w1) /\
  emitted w0 (loadWorkflow workflow_with_private_images w0)
  = emitted w1 (loadWorkflow workflow_with_private_images w1) /\
  (forall workflow,
     returned (loadWorkflow workflow_with_private_images w0) = inr (Some workflow) ->
     atom_nodeExecutionStates (world_after (loadWorkflow workflow_with_private_images w0))
     = atom_nodeExecutionStates (world_after (loadWorkflow workflow_with_private_images w1)) /\
     atom_needsFit (world_after (loadWorkflow workflow_with_private_images w0))
     = atom_needsFit (world_after (loadWorkflow workflow_with_private_images w1))).
Proof.
  split; [reflexivity|]. split; [vm_compute; discriminate|]. split; [discriminate|].
  exact (run_reads_only_the_templates workflow_with_private_images w0 w1 eq_refl).
Defined.

(** With a fit atom that throws, a workflow with two refused images makes
    the load return [null] after the success toast: two toasts, the second
    with the error status. *)
Example two_toasts_when_the_fit_atom_throws :
  returned (loadWorkflow (env := Faults.env_needsFit) workflow_with_private_images w0)
  = inr None /\
  map toast_status
      (toasts (emitted w0 (loadWorkflow (env := Faults.env_needsFit)
                             workflow_with_private_images w0)))
  = [StatusWarning; StatusError] /\
  length (warn_logs (emitted w0 (loadWorkflow (env := Faults.env_needsFit)
                                   workflow_with_private_images w0))) = 2 /\
  atom_needsFit (world_after (loadWorkflow (env := Faults.env_needsFit)
                                workflow_with_private_images w0)) = false.
Proof. repeat split; vm_compute; reflexivity. Qed.

(** The theorem of X4 with a fit atom that throws: the error line and the
    error toast follow the five calls that returned. *)
Lemma error_line_carries_the_toast_description_witness :
  returned (loadWorkflow (env := Faults.env_needsFit) workflow_with_private_images w0)
  = inr None /\
  exists before e message shown,
    emitted w0 (loadWorkflow (env := Faults.env_needsFit) workflow_with_private_images w0)
    = before
      ++ [LogError (JsObject [("error", @serializeError Faults.env_needsFit e)]) message;
          Toasted shown] /\
    toast_description shown = Some message /\
    toast_status shown = StatusError /\
    (forall thrown,
       getWorkflowFromStringifiedWorkflowOrGraph (env := Faults.env_needsFit)
         workflow_with_private_images (atom_templates w0) = inl thrown ->
       thrown = e /\ before = []).
Proof.
  assert (Hnull : returned (loadWorkflow (env := Faults.env_needsFit)
                              workflow_with_private_images w0) = inr None)
    by (vm_compute; reflexivity).
  exact (conj Hnull
           (error_line_carries_the_toast_description (env := Faults.env_needsFit)
              workflow_with_private_images w0 Hnull)).
Defined.

(** The theorem of X5 twice: an empty workflow text loads as no workflow
    does, and a graph text that is not JSON beside a workflow loads as an
    empty graph text does. *)
Lemma same_selected_text_same_run_witness :
  loadWorkflow empty_workflow_and_graph w0 = loadWorkflow graph_only w0 /\
  loadWorkflow workflow_and_broken_graph w0 = loadWorkflow workflow_and_empty_graph w0.
Proof.
  split.
  - apply (same_selected_text_same_run empty_workflow_and_graph graph_only w0).
    + reflexivity.
    + intros _. reflexivity.
  - apply (same_selected_text_same_run workflow_and_broken_graph workflow_and_empty_graph w0).
    + reflexivity.
    + vm_compute. discriminate.
Defined.

(** The theorem of X6 at a workflow with two nodes whose image is refused:
    six calls. *)
Lemma calls_of_a_successful_load_witness :
  let r := {| vr_workflow :=
                JsObject
                  [("version", JsString "3.0.0");
                   ("nodes",
                    JsArray [JsObject [("id", JsString "a"); ("image", JsString "private.png")];
                             JsObject [("id", JsString "b"); ("image", JsString "private.png")]]);
                   ("edges", JsArray [])];
              vr_warnings :=
                [{| warning_message := "Image not accessible";
                    warning_rest := JsObject [("image", JsString "private.png")] |};
                 {| warning_message := "Image not accessible";
                    warning_rest := JsObject [("image", JsString "private.png")] |}] |} in
  getWorkflowFromStringifiedWorkflowOrGraph workflow_with_private_images (atom_templates w0)
  = inr r /\
  returned (loadWorkflow workflow_with_private_images w0) = inr (Some (vr_workflow r)) /\
  emitted w0 (loadWorkflow workflow_with_private_images w0)
  = [NodeExecutionStatesSet ∅;
     Dispatched (workflowLoaded (vr_workflow r));
     Toasted loaded_with_warnings_toast]
    ++ map (fun warning => LogWarn (warning_rest warning) (warning_message warning))
           (vr_warnings r)
    ++ [NeedsFitSet true] /\
  last (emitted w0 (loadWorkflow workflow_with_private_images w0)) = Some (NeedsFitSet true) /\
  length (emitted w0 (loadWorkflow workflow_with_private_images w0)) = 6.
Proof.
  intros r.
  assert (Hget : getWorkflowFromStringifiedWorkflowOrGraph workflow_with_private_images
                   (atom_templates w0) = inr r)
    by (vm_compute; reflexivity).
  assert (Hreturned : returned (loadWorkflow workflow_with_private_images w0)
                      = inr (Some (vr_workflow r)))
    by (vm_compute; reflexivity).
  exact (conj Hget (conj Hreturned
           (calls_of_a_successful_load workflow_with_private_images w0 r Hget Hreturned))).
Defined.

(** The theorem of X7, from a cause to the throw: the sample converter
    refuses the number that the graph text parses to, and the helper throws
    the converter's error. *)
Lemma causes_of_failure_witness :
  JSON_parse "7" = inr (JsNumber 7) /\
  graphToWorkflow (JsNumber 7) true = inl (TypeError "Cannot read properties of graph") /\
  getWorkflowFromStringifiedWorkflowOrGraph number_graph (atom_templates w0)
  = inl (TypeError "Cannot read properties of graph").
Proof.
  assert (Hparse : JSON_parse "7" = inr (JsNumber 7)) by (vm_compute; reflexivity).
  assert (Hconvert : graphToWorkflow (JsNumber 7) true
                     = inl (TypeError "Cannot read properties of graph"))
    by reflexivity.
  split; [exact Hparse|]. split; [exact Hconvert|].
  apply (proj2 (causes_of_failure number_graph (atom_templates w0) _)).
  right. right. left. exists "7", (JsNumber 7).
  split; [reflexivity|]. split; [reflexivity|]. split; [exact Hparse|exact Hconvert].
Defined.


End FurtherOnTheSampleEnvironment.
